(** * Alert system of the cybersecurity news dashboard

    A shallow embedding of [alert_system.py]: the keyword classifier
    [is_critical_news], the alert history store ([load_alert_history],
    [save_alert_history]), the dispatcher [check_for_alerts] and the digest
    builder [get_critical_news_digest], with the properties the design
    document states about them; then the registration of the destination
    ([register_phone_for_alerts], [get_registered_phone]), [test_alert_system],
    [send_digest_alert] and [run_alert_system], with further properties read
    off the code.

    Conventions.
    - Python [str] is [string]; [str.lower] acts on the letters A-Z and
      leaves every other character alone.
    - A cell of a news row is a [cell]: a [str], [None], or the float NaN
      that pandas puts in an empty field.
    - A Python exception is a [Raise] result; effects on the history file and
      on the Twilio transport are threaded through a [world]. *)

From stdpp Require Import gmap strings list.
From Stdlib Require Import ZArith Ascii String Sorting.Sorted Permutation.
From Stdlib Require DecimalString.

Local Open Scope string_scope.
Local Open Scope list_scope.

(** ** Exceptions and results *)

Inductive exn := TypeError | AttributeError.

Inductive result (A : Type) :=
| Ok (a : A)
| Raise (e : exn).
Arguments Ok {A} a.
Arguments Raise {A} e.

(** ** Strings as Python uses them *)

Module PyStr.

Definition lower_ascii (c : ascii) : ascii :=
  let n := N_of_ascii c in
  if ((65 <=? n) && (n <=? 90))%N then ascii_of_N (n + 32) else c.

(** [s.lower()] for ASCII text: the letters A to Z are folded, every other
    character is kept. *)
Fixpoint lower (s : string) : string :=
  match s with
  | EmptyString => EmptyString
  | String c s' => String (lower_ascii c) (lower s')
  end.

(** [s.startswith(p)] *)
Fixpoint startswith (p s : string) : bool :=
  match p, s with
  | EmptyString, _ => true
  | String _ _, EmptyString => false
  | String a p', String b s' => if Ascii.eqb a b then startswith p' s' else false
  end.

(** [p in s] for two strings: [p] occurs in [s] as a contiguous run. *)
Fixpoint contains (p s : string) : bool :=
  startswith p s ||
  match s with
  | EmptyString => false
  | String _ s' => contains p s'
  end.

(** [sep.join(l)] *)
Fixpoint join (sep : string) (l : list string) : string :=
  match l with
  | [] => ""
  | [x] => x
  | x :: l' => x +:+ sep +:+ join sep l'
  end.

End PyStr.

(** ** Cells of a news row *)

Inductive cell :=
| CStr (s : string)
| CNone
| CNaN.

(** [str(c)], as an f-string renders a cell. *)
Definition py_str (c : cell) : string :=
  match c with
  | CStr s => s
  | CNone => "None"
  | CNaN => "nan"
  end.

(** Truth value of a cell: NaN is a non-zero float, hence true. *)
Definition truthy (c : cell) : bool :=
  match c with
  | CStr s => negb (String.eqb s "")
  | CNone => false
  | CNaN => true
  end.

(** [a + b] where Python only concatenates two strings. *)
Definition py_add (a b : cell) : result cell :=
  match a, b with
  | CStr x, CStr y => Ok (CStr (x +:+ y))
  | _, _ => Raise TypeError
  end.

(** [c.lower()]: only [str] has the method. *)
Definition py_lower (c : cell) : result string :=
  match c with
  | CStr s => Ok (PyStr.lower s)
  | _ => Raise AttributeError
  end.

(** [c in l] for a list of strings: [==] against each element. *)
Definition cell_in (c : cell) (l : list string) : bool :=
  match c with
  | CStr s => existsb (String.eqb s) l
  | _ => false
  end.

(** ** The classifier *)

Definition severity_high_keywords : list string :=
  [ "critical"; "urgent"; "emergency"; "severe"; "zero-day"; "zero day";
    "ransomware"; "remote code execution"; "data breach"; "national security" ].

Definition severity_medium_keywords : list string :=
  [ "vulnerability"; "exploit"; "breach"; "attack"; "compromise"; "warning";
    "malware"; "backdoor"; "data leak"; "hack"; "phishing campaign" ].

Definition severity_low_keywords : list string :=
  [ "alert"; "security update"; "patch"; "advisory"; "update available";
    "security issue"; "cybersecurity"; "threat" ].

Definition priority_sources : list string :=
  [ "CERT-In"; "NCIIPC"; "I4C"; "NASSCOM" ].

Definition medium_priority_sources : list string :=
  [ "The Economic Times"; "The Hindu"; "Times of India"; "India Today" ].

(** [[keyword for keyword in kws if keyword.lower() in combined_text]] *)
Definition matches (kws : list string) (combined_text : string) : list string :=
  List.filter (fun keyword => PyStr.contains (PyStr.lower keyword) combined_text) kws.

(** The rule cascade of [is_critical_news], once [combined_text] is known. *)
Definition decide_critical (source : cell) (combined_text : string) : bool * string :=
  let high_matches := matches severity_high_keywords combined_text in
  let medium_matches := matches severity_medium_keywords combined_text in
  let low_matches := matches severity_low_keywords combined_text in
  let all_matches := high_matches ++ medium_matches ++ low_matches in
  if cell_in source priority_sources && (1 <=? List.length high_matches)%nat then
    (true, "High-priority source (" +:+ py_str source +:+ ") with critical keyword: "
             +:+ hd "" high_matches)
  else if cell_in source priority_sources && (2 <=? List.length medium_matches)%nat then
    (true, "High-priority source (" +:+ py_str source
             +:+ ") with multiple medium-severity keywords: "
             +:+ PyStr.join ", " (take 2 medium_matches))
  else if cell_in source medium_priority_sources && (1 <=? List.length high_matches)%nat then
    (true, "Medium-priority source (" +:+ py_str source +:+ ") with high-severity keyword: "
             +:+ hd "" high_matches)
  else if (1 <=? List.length high_matches)%nat && (1 <=? List.length medium_matches)%nat then
    (true, "High and medium severity keywords: " +:+ hd "" high_matches +:+ ", "
             +:+ hd "" medium_matches)
  else if (3 <=? List.length all_matches)%nat then
    (true, "Multiple security keywords: " +:+ PyStr.join ", " (take 3 all_matches))
  else
    (false, "").

(** [is_critical_news(headline, content, source)].  The first statement,
    [(headline + " " + content).lower()], is where a non-string field
    raises. *)
Definition is_critical_news (headline content source : cell) : result (bool * string) :=
  match py_add headline (CStr " ") with
  | Raise e => Raise e
  | Ok hs =>
    match py_add hs content with
    | Raise e => Raise e
    | Ok joined =>
      match py_lower joined with
      | Raise e => Raise e
      | Ok combined_text => Ok (decide_critical source combined_text)
      end
    end
  end.

(** ** News rows *)

(** One row of the news frame.  The frame has the columns [source],
    [headline], [content] and [date] that the code indexes; the [url] column
    may be missing altogether, in which case [item.get('url')] is [None]. *)
Record news_item := {
  source : cell;
  headline : cell;
  content : cell;
  date : cell;
  url : option cell
}.

Definition nl : string := String (ascii_of_nat 10) "".

(** [f"{row['source']}:{row['headline']}"] *)
Definition news_id (row : news_item) : string :=
  py_str (source row) +:+ ":" +:+ py_str (headline row).

(** [format_alert_message(news_item)] *)
Definition format_alert_message (item : news_item) : string :=
  let message :=
    "SECURITY ALERT: " +:+ py_str (source item) +:+ nl +:+ nl +:+
    py_str (headline item) +:+ nl +:+ nl +:+ "Date: " +:+ py_str (date item) in
  match url item with
  | Some u => if truthy u then message +:+ nl +:+ nl +:+ "More info: " +:+ py_str u
              else message
  | None => message
  end.

(** ** JSON documents, as [json.load] returns them *)

#[warnings="-register-all"]
Inductive json :=
| JNull
| JBool (b : bool)
| JNum (z : Z)
| JStr (s : string)
| JList (l : list json)
| JObj (m : gmap string json).

Definition json_truthy (j : json) : bool :=
  match j with
  | JNull => false
  | JBool b => b
  | JNum z => negb (z =? 0)%Z
  | JStr s => negb (String.eqb s "")
  | JList l => match l with [] => false | _ => true end
  | JObj m => negb (bool_decide (m = ∅))
  end.

(** [x == s] for a loaded value [x] and a string [s]. *)
Definition json_eq_str (s : string) (x : json) : bool :=
  match x with
  | JStr t => String.eqb t s
  | _ => false
  end.

(** [s in ids]: list membership, substring of a string, key of a dict;
    anything else is not iterable. *)
Definition json_contains (s : string) (ids : json) : result bool :=
  match ids with
  | JList l => Ok (existsb (json_eq_str s) l)
  | JStr t => Ok (PyStr.contains s t)
  | JObj m => Ok (bool_decide (is_Some (m !! s)))
  | _ => Raise TypeError
  end.

(** [ids.append(s)]: only a list has the method. *)
Definition json_append (s : string) (ids : json) : result json :=
  match ids with
  | JList l => Ok (JList (l ++ [JStr s]))
  | _ => Raise AttributeError
  end.

(** ** The world the dispatcher runs in *)

(** What [alert_history.json] can be: not there, there but not openable,
    there but not JSON, or a JSON document. *)
Inductive file_state :=
| Absent
| Unreadable
| Garbled
| Doc (j : json).

(** The environment: the Twilio settings read at import time, the
    Twilio call itself ([None] when it raises), and the two [datetime]
    conversions.  A [datetime] is a number of seconds. *)
Class Platform (T : Type) := {
  TWILIO_ACCOUNT_SID : option string;
  TWILIO_AUTH_TOKEN : option string;
  TWILIO_PHONE_NUMBER : option string;
  messages_create : T -> string -> string -> string -> T * option string;
  fromisoformat : string -> option Z;
  isoformat : Z -> string
}.

(** The state outside the program: the history file, whether writing it
    succeeds, the Twilio service and the clock [datetime.now()] reads.  The
    history only ever holds what [json.load] gave plus strings, so a write
    fails for no other reason than the file system. *)
Record world (T : Type) := {
  hist_file : file_state;
  hist_writable : bool;
  twilio : T;
  clock : Z
}.
Arguments hist_file {T} w.
Arguments hist_writable {T} w.
Arguments twilio {T} w.
Arguments clock {T} w.

Definition set_hist_file {T} (f : file_state) (w : world T) : world T :=
  {| hist_file := f; hist_writable := hist_writable w;
     twilio := twilio w; clock := clock w |}.

Definition set_twilio {T} (t : T) (w : world T) : world T :=
  {| hist_file := hist_file w; hist_writable := hist_writable w;
     twilio := t; clock := clock w |}.

(** A computation that may change the world and may raise. *)
Definition M (T A : Type) : Type := world T → world T * result A.

Definition raise {T A} (e : exn) : M T A := fun w => (w, Raise e).
Definition lift {T A} (r : result A) : M T A := fun w => (w, r).

#[global] Instance M_ret {T} : MRet (M T) := fun A a w => (w, Ok a).

#[global] Instance M_bind {T} : MBind (M T) := fun A B k c w =>
  match c w with
  | (w', Ok a) => k a w'
  | (w', Raise e) => (w', Raise e)
  end.

(** Unfolds the monad operations in the goal and the hypotheses. *)
Ltac unfold_M := unfold mbind, M_bind, mret, M_ret, lift, raise in *.

(** ** The history store *)

Definition empty_history : json :=
  JObj (<["alerts_sent" := JList []]> (<["last_check" := JNull]> ∅)).

(** [load_alert_history()]: every exception is caught. *)
Definition load_alert_history {T} : M T json :=
  fun w =>
    match hist_file w with
    | Absent => (w, Ok empty_history)
    | Unreadable => (w, Ok empty_history)
    | Garbled => (w, Ok empty_history)
    | Doc j => (w, Ok j)
    end.

(** [save_alert_history(history)]: a failed write is logged and dropped.
    [hist_writable w = false] stands for [open(ALERT_HISTORY_FILE, 'w')]
    raising (a read-only file or directory), which happens before anything
    is truncated, so the file keeps what it held.  A write that fails after
    the file was opened, and leaves it cut short, is outside this model. *)
Definition save_alert_history {T} (history : json) : M T unit :=
  fun w =>
    if hist_writable w then (set_hist_file (Doc history) w, Ok tt)
    else (w, Ok tt).

(** ** The sender *)

Definition env_set (v : option string) : bool :=
  match v with
  | Some s => negb (String.eqb s "")
  | None => false
  end.

(** [send_sms_alert(to_phone_number, message)] *)
Definition send_sms_alert {T} `{Platform T} (to_phone_number message : string) : M T bool :=
  fun w =>
    if negb (env_set TWILIO_ACCOUNT_SID && env_set TWILIO_AUTH_TOKEN
             && env_set TWILIO_PHONE_NUMBER)
    then (w, Ok false)
    else
      match messages_create (twilio w) message
              (default "" TWILIO_PHONE_NUMBER) to_phone_number with
      | (t', Some _) => (set_twilio t' w, Ok true)
      | (t', None) => (set_twilio t' w, Ok false)
      end.

(** ** The dispatcher *)

Record loop_state := {
  already_alerted_ids : json;
  critical_items : list news_item;
  alerts_sent : nat
}.

(** The body of [for _, row in news_df.iterrows()]. *)
Definition loop_body {T} `{Platform T} (phone_number : string)
    (st : loop_state) (row : news_item) : M T loop_state :=
  let nid := news_id row in
  seen ← lift (json_contains nid (already_alerted_ids st));
  if seen : bool then mret st
  else
    verdict ← lift (is_critical_news (headline row) (content row) (source row));
    if fst verdict : bool then
      let items := critical_items st ++ [row] in
      if negb (String.eqb phone_number "") then
        success ← send_sms_alert phone_number (format_alert_message row);
        if success : bool then
          ids ← lift (json_append nid (already_alerted_ids st));
          mret {| already_alerted_ids := ids; critical_items := items;
                 alerts_sent := S (alerts_sent st) |}
        else
          mret {| already_alerted_ids := already_alerted_ids st;
                 critical_items := items; alerts_sent := alerts_sent st |}
      else
        mret {| already_alerted_ids := already_alerted_ids st;
               critical_items := items; alerts_sent := alerts_sent st |}
    else mret st.

Fixpoint for_rows {T} `{Platform T} (phone_number : string)
    (news_df : list news_item) (st : loop_state) : M T loop_state :=
  match news_df with
  | [] => mret st
  | row :: rest =>
    st' ← loop_body phone_number st row;
    for_rows phone_number rest st'
  end.

Definition one_day : Z := 86400.

(** The [last_check] local of [check_for_alerts]: parsed when present and
    well formed, one day ago otherwise.  Nothing reads it afterwards. *)
Definition parse_last_check {T} `{Platform T} (now : Z) (stored : json) : Z :=
  if json_truthy stored then
    match stored with
    | JStr s =>
      match fromisoformat s with
      | Some d => d
      | None => (now - one_day)%Z
      end
    | _ => (now - one_day)%Z
    end
  else (now - one_day)%Z.

(** The loop variables as they stand before the first row:
    [history.get('alerts_sent', [])], [[]] and [0]. *)
Definition initial_state (h : gmap string json) : loop_state :=
  {| already_alerted_ids := default (JList []) (h !! "alerts_sent");
     critical_items := [];
     alerts_sent := 0 |}.

(** [check_for_alerts(news_df, phone_number)] *)
Definition check_for_alerts {T} `{Platform T} (news_df : list news_item)
    (phone_number : option string) : M T (list news_item * bool) :=
  match phone_number with
  | None => mret ([], false)
  | Some phone =>
    history ← load_alert_history;
    match history with
    | JObj h =>
      fun w =>
        let now := clock w in
        let last_check := parse_last_check now (default JNull (h !! "last_check")) in
        let h1 := <["last_check" := JStr (isoformat now)]> h in
        (st ← for_rows phone news_df (initial_state h);
         _ ← save_alert_history
               (JObj (<["alerts_sent" := already_alerted_ids st]> h1));
         mret (critical_items st, (0 <? alerts_sent st)%nat)) w
    | _ => raise AttributeError
    end
  end.

(** ** The digest *)

(** The [priority_sources] table local to [get_critical_news_digest]; the
    prefix tells it from the classifier's list of the same name. *)
Definition digest_priority_sources : list (string * Z) :=
  [ ("CERT-In", 10); ("NCIIPC", 9); ("I4C", 8); ("NASSCOM", 7);
    ("The Economic Times", 5); ("The Hindu", 5); ("Times of India", 5);
    ("India Today", 5) ]%Z.

Definition severity_scores : list (string * Z) :=
  [ ("critical", 10); ("urgent", 10); ("emergency", 10); ("severe", 9);
    ("zero-day", 9); ("zero day", 9); ("ransomware", 8);
    ("remote code execution", 8); ("data breach", 8); ("national security", 8);
    ("vulnerability", 7); ("exploit", 7); ("breach", 6); ("attack", 6);
    ("compromise", 6); ("warning", 5); ("malware", 5); ("backdoor", 5);
    ("data leak", 5); ("hack", 5); ("phishing campaign", 5); ("alert", 4);
    ("security update", 3); ("patch", 3); ("advisory", 3);
    ("update available", 2); ("security issue", 2); ("cybersecurity", 1);
    ("threat", 1) ]%Z.

(** [table.get(key, 0)] for a string-keyed table and any cell as key. *)
Fixpoint table_get (table : list (string * Z)) (key : cell) : Z :=
  match table with
  | [] => 0
  | (k, v) :: rest =>
    match key with
    | CStr s => if String.eqb k s then v else table_get rest key
    | _ => 0
    end
  end.

(** [c.lower() if isinstance(c, str) else ""] *)
Definition lower_or_empty (c : cell) : string :=
  match c with
  | CStr s => PyStr.lower s
  | _ => ""
  end.

(** The text the digest searches: the two lowered fields with a space. *)
Definition digest_text (row : news_item) : string :=
  lower_or_empty (headline row) +:+ " " +:+ lower_or_empty (content row).

(** The inner [for keyword, keyword_score in severity_scores.items()]. *)
Definition add_keyword_scores (combined_text : string) (score : Z) : Z :=
  fold_left
    (fun acc kv =>
       if PyStr.contains (PyStr.lower (fst kv)) combined_text
       then (acc + snd kv)%Z else acc)
    severity_scores score.

(** The score one row gets. *)
Definition criticality_score (row : news_item) : Z :=
  add_keyword_scores (digest_text row)
    (0 + table_get digest_priority_sources (source row))%Z.

(** A row with its [criticality_score] entry added. *)
Definition scored_item : Type := news_item * Z.

(** [list.sort(key=..., reverse=True)]: stable, largest key first.  An
    element is put after the ones with a strictly larger key and before the
    ones it ties with that came later in the input. *)
Fixpoint insert_desc {A} (key : A → Z) (x : A) (l : list A) : list A :=
  match l with
  | [] => [x]
  | y :: l' =>
    if (key x <? key y)%Z then y :: insert_desc key x l' else x :: l
  end.

Fixpoint sort_desc {A} (key : A → Z) (l : list A) : list A :=
  match l with
  | [] => []
  | x :: l' => insert_desc key x (sort_desc key l')
  end.

(** [l[:n]] for a Python integer [n]: a negative bound counts from the end. *)
Definition py_slice_to {A} (l : list A) (n : Z) : list A :=
  if (n <? 0)%Z then take (Z.to_nat (Z.of_nat (List.length l) + n)) l
  else take (Z.to_nat n) l.

(** The scoring loop: rows at or above the threshold, in input order. *)
Fixpoint score_rows (news_df : list news_item) : list scored_item :=
  match news_df with
  | [] => []
  | row :: rest =>
    let score := criticality_score row in
    if (10 <=? score)%Z then (row, score) :: score_rows rest
    else score_rows rest
  end.

(** [get_critical_news_digest(news_df, max_items)] for a given frame. *)
Definition get_critical_news_digest (news_df : list news_item) (max_items : Z)
    : list scored_item :=
  py_slice_to (sort_desc snd (score_rows news_df)) max_items.

(** ** Reading the design document

    The definitions below restate notions of the design document, to compare
    them with the code above. *)

#[global] Instance cell_eq_dec : EqDecision cell.
Proof. solve_decision. Defined.

(** Two rows are the same news item when source and headline agree. *)
Definition same_identity (a b : news_item) : bool :=
  bool_decide (source a = source b ∧ headline a = headline b).

(** The three classes of sources. *)
Inductive source_class := PRIORITY | MEDIUM_PRIORITY | UNCLASSIFIED.

Definition classify_source (src : cell) : source_class :=
  if cell_in src priority_sources then PRIORITY
  else if cell_in src medium_priority_sources then MEDIUM_PRIORITY
  else UNCLASSIFIED.

(** The rules (a) to (f), in the order the document gives them. *)
Inductive rule := RuleA | RuleB | RuleC | RuleD | RuleE | RuleF.

Definition is_priority (cls : source_class) : bool :=
  match cls with PRIORITY => true | _ => false end.

Definition is_medium_priority (cls : source_class) : bool :=
  match cls with MEDIUM_PRIORITY => true | _ => false end.

Definition first_rule (cls : source_class) (high medium low : list string) : rule :=
  if is_priority cls && (1 <=? List.length high)%nat then RuleA
  else if is_priority cls && (2 <=? List.length medium)%nat then RuleB
  else if is_medium_priority cls && (1 <=? List.length high)%nat then RuleC
  else if (1 <=? List.length high)%nat && (1 <=? List.length medium)%nat then RuleD
  else if (3 <=? List.length (high ++ medium ++ low))%nat then RuleE
  else RuleF.

(** The verdict and the reason each rule produces. *)
Definition rule_verdict (r : rule) (src : cell) (high medium low : list string)
    : bool * string :=
  match r with
  | RuleA => (true, "High-priority source (" +:+ py_str src
                      +:+ ") with critical keyword: " +:+ hd "" high)
  | RuleB => (true, "High-priority source (" +:+ py_str src
                      +:+ ") with multiple medium-severity keywords: "
                      +:+ PyStr.join ", " (take 2 medium))
  | RuleC => (true, "Medium-priority source (" +:+ py_str src
                      +:+ ") with high-severity keyword: " +:+ hd "" high)
  | RuleD => (true, "High and medium severity keywords: " +:+ hd "" high
                      +:+ ", " +:+ hd "" medium)
  | RuleE => (true, "Multiple security keywords: "
                      +:+ PyStr.join ", " (take 3 (high ++ medium ++ low)))
  | RuleF => (false, "")
  end.

(** A JSON document has the shape of an alert history when it is an object
    whose [alerts_sent] is a list of strings and whose [last_check] is null
    or a string. *)
Definition is_json_str (j : json) : bool :=
  match j with JStr _ => true | _ => false end.

Definition is_alert_history (j : json) : bool :=
  match j with
  | JObj m =>
    match m !! "alerts_sent", m !! "last_check" with
    | Some (JList l), Some JNull => forallb is_json_str l
    | Some (JList l), Some (JStr _) => forallb is_json_str l
    | _, _ => false
    end
  | _ => false
  end.

(** What [load_alert_history] makes of each state of the file. *)
Definition stored_history (f : file_state) : json :=
  match f with
  | Doc j => j
  | _ => empty_history
  end.

(** The history a run hands to [save_alert_history]: the loaded object with
    [last_check] set to the time of the run and [alerts_sent] set to the
    identifiers the loop ends with. *)
Definition updated_history {T} `{Platform T} (h : gmap string json) (now : Z)
    (ids : json) : json :=
  JObj (<["alerts_sent" := ids]> (<["last_check" := JStr (isoformat now)]> h)).

(** The identifiers a run starts from, given what is stored. *)
Definition stored_ids {T} (w : world T) : json :=
  match snd (load_alert_history w) with
  | Ok (JObj h) => already_alerted_ids (initial_state h)
  | _ => JList []
  end.

(** The store holds nothing usable: no file, a file that cannot be read, or
    content that is not an alert history. *)
Definition unusable_store (f : file_state) : Prop :=
  match f with
  | Doc j => is_alert_history j = false
  | _ => True
  end.

Definition list_sum_Z (l : list Z) : Z := fold_right Z.add 0%Z l.

(** The score as the document words it: the points of the source plus the
    weights of the table keywords found in the text. *)
Definition score_by_sum (row : news_item) : Z :=
  (table_get digest_priority_sources (source row)
   + list_sum_Z
       (map snd (List.filter
                   (fun kv => PyStr.contains (PyStr.lower (fst kv)) (digest_text row))
                   severity_scores)))%Z.

(** The rows that qualify for the digest, in input order, with their score. *)
Definition qualifying (news_df : list news_item) : list scored_item :=
  map (fun row => (row, score_by_sum row))
      (List.filter (fun row => (10 <=? score_by_sum row)%Z) news_df).

(** Largest score first. *)
Definition descending (a b : scored_item) : Prop := (snd b <= snd a)%Z.

(** The items of a list that carry a given score, in order. *)
Definition with_score (s : Z) (l : list scored_item) : list scored_item :=
  List.filter (fun x => (snd x =? s)%Z) l.

(** The loop variables a run starts with in world [w]. *)
Definition start_state {T} (w : world T) : loop_state :=
  {| already_alerted_ids := stored_ids w; critical_items := []; alerts_sent := 0 |}.

(** In loop state [st] and world [w] the row is not skipped, is critical,
    and the send made for it returns [ok], leaving the world [w']. *)
Definition sends {T} `{Platform T} (phone : string) (st : loop_state)
    (row : news_item) (w w' : world T) (ok : bool) : Prop :=
  json_contains (news_id row) (already_alerted_ids st) = Ok false
  ∧ (∃ reason,
       is_critical_news (headline row) (content row) (source row) = Ok (true, reason))
  ∧ phone ≠ ""
  ∧ send_sms_alert phone (format_alert_message row) w = (w', Ok ok).

(** The same for a row inside a batch: the rows before it have been
    processed without an exception when its turn comes. *)
Definition send_in_batch {T} `{Platform T} (phone : string)
    (rows : list news_item) (st0 : loop_state) (w0 : world T)
    (row : news_item) (ok : bool) : Prop :=
  ∃ pre post st w w',
    rows = pre ++ row :: post
    ∧ for_rows phone pre st0 w0 = (w, Ok st)
    ∧ sends phone st row w w' ok.

(** ** A concrete platform

    Twilio is configured; the service keeps the list of accepted messages
    and refuses the number +10000000000. *)

Definition demo_create (outbox : list (string * string)) (body from to : string)
    : list (string * string) * option string :=
  if String.eqb to "+10000000000" then (outbox, None)
  else (outbox ++ [(to, body)], Some "SM0001").

Definition demo_fromisoformat (s : string) : option Z :=
  if String.eqb s "1970-01-01T00:00:00" then Some 0%Z else None.

Definition demo_isoformat (z : Z) : string :=
  if (z =? 0)%Z then "1970-01-01T00:00:00" else "2025-01-01T00:00:00".

#[global] Instance demo_platform : Platform (list (string * string)) := {|
  TWILIO_ACCOUNT_SID := Some "AC0001";
  TWILIO_AUTH_TOKEN := Some "token";
  TWILIO_PHONE_NUMBER := Some "+15550001111";
  messages_create := demo_create;
  fromisoformat := demo_fromisoformat;
  isoformat := demo_isoformat
|}.

Definition demo_world (f : file_state) : world (list (string * string)) :=
  {| hist_file := f; hist_writable := true; twilio := []; clock := 1735689600 |}.

Definition demo_item (src head body : string) : news_item :=
  {| source := CStr src; headline := CStr head; content := CStr body;
     date := CStr "2025-01-01"; url := None |}.

(** ** The registered number

    [alert_phone.txt] holds the one destination.  The functions below read
    and write that file only. *)

(** [c.isspace()] for an ASCII character: tab to carriage return, the
    four separators 28 to 31, and the space.  Python also counts white space
    beyond ASCII; the statements that depend on it are made for ASCII text
    ([ascii_only]). *)
Definition py_isspace (c : ascii) : bool :=
  let n := N_of_ascii c in
  (((9 <=? n) && (n <=? 13)) || ((28 <=? n) && (n <=? 32)))%N.

(** [c.isdigit()] for an ASCII character: 0 to 9.  Python also counts
    digits beyond ASCII; the statements that depend on it are made for ASCII
    text ([ascii_only]). *)
Definition py_isdigit (c : ascii) : bool :=
  let n := N_of_ascii c in
  ((48 <=? n) && (n <=? 57))%N.

(** [s.lstrip()] *)
Fixpoint py_lstrip (s : string) : string :=
  match s with
  | EmptyString => EmptyString
  | String c s' => if py_isspace c then py_lstrip s' else s
  end.

(** [s.rstrip()] *)
Fixpoint py_rstrip (s : string) : string :=
  match s with
  | EmptyString => EmptyString
  | String c s' =>
    match py_rstrip s' with
    | EmptyString => if py_isspace c then EmptyString else String c EmptyString
    | r => String c r
    end
  end.

(** [s.strip()] *)
Definition py_strip (s : string) : string := py_lstrip (py_rstrip s).

(** [''.join(c for c in s if c.isdigit())] *)
Fixpoint keep_digits (s : string) : string :=
  match s with
  | EmptyString => EmptyString
  | String c s' => if py_isdigit c then String c (keep_digits s') else keep_digits s'
  end.

(** [s[1:]] *)
Definition drop_first (s : string) : string :=
  match s with
  | EmptyString => EmptyString
  | String _ s' => s'
  end.

(** [str(n)] for a natural number. *)
Definition str_of_nat (n : nat) : string :=
  DecimalString.NilEmpty.string_of_uint (Nat.to_uint n).

(** What [alert_phone.txt] can be: not there, there but not openable, or a
    text. *)
Inductive text_file :=
| NoFile
| Locked
| Text (s : string).

(** The first [n] characters of a string. *)
Fixpoint take_chars (n : nat) (s : string) : string :=
  match n, s with
  | S n', String c s' => String c (take_chars n' s')
  | _, _ => EmptyString
  end.

(** What writing [alert_phone.txt] does.  [open(..., 'w')] may raise, and
    then the file keeps what it held; or the file is opened, which empties
    it, and the write raises after [kept] characters went out. *)
Inductive write_outcome :=
| Written
| OpenFails (err : string)
| WriteFails (err : string) (kept : nat).

(** The file and what writing it does. *)
Record phone_store := {
  phone_file : text_file;
  phone_write : write_outcome
}.

(** [register_phone_for_alerts(phone_number)] *)
Definition register_phone_for_alerts (phone_number : option string)
    (ps : phone_store) : phone_store * (bool * string) :=
  match phone_number with
  | None => (ps, (false, "Phone number cannot be empty"))
  | Some s =>
    if String.eqb s "" || String.eqb (py_strip s) "" then
      (ps, (false, "Phone number cannot be empty"))
    else
      let stripped := py_strip s in
      let plussed :=
        if PyStr.startswith "+" stripped then stripped else "+" +:+ stripped in
      let number := "+" +:+ keep_digits (drop_first plussed) in
      if (String.length number <? 10)%nat then
        (ps, (false, "Phone number is too short"))
      else
        match phone_write ps with
        | Written =>
          ({| phone_file := Text number; phone_write := Written |},
           (true, "Successfully registered " +:+ number +:+ " for alerts"))
        | OpenFails err =>
          (ps, (false, "Error registering phone number: " +:+ err))
        | WriteFails err kept =>
          ({| phone_file := Text (take_chars kept number);
              phone_write := WriteFails err kept |},
           (false, "Error registering phone number: " +:+ err))
        end
  end.

(** [get_registered_phone()] *)
Definition get_registered_phone (ps : phone_store) : option string :=
  match phone_file ps with
  | NoFile => None
  | Locked => None
  | Text s => Some (py_strip s)
  end.

(** [not phone_number] for a value that is [None] or a string. *)
Definition no_number (phone_number : option string) : bool :=
  match phone_number with
  | None => true
  | Some s => String.eqb s ""
  end.

Definition test_message : string :=
  "TEST ALERT: This is a test of the cybersecurity alert system. "
  +:+ "You will receive messages like this for critical security alerts.".

(** [test_alert_system(phone_number)] *)
Definition test_alert_system {T} `{Platform T} (phone_number : option string)
    (ps : phone_store) : M T (bool * string) :=
  let phone_number :=
    if no_number phone_number then get_registered_phone ps else phone_number in
  match phone_number with
  | None => mret (false, "No phone number registered for alerts")
  | Some phone =>
    if String.eqb phone "" then mret (false, "No phone number registered for alerts")
    else
      success ← send_sms_alert phone test_message;
      if success : bool then mret (true, "Test alert sent to " +:+ phone)
      else mret (false, "Failed to send test alert. Check Twilio credentials.")
  end.

(** ** Sending a digest *)

(** The numbered lines of [send_digest_alert], for the items from position
    [i] on: [f"{i+1}. {item['source']}: {item['headline']}\n"]. *)
Fixpoint digest_lines (i : nat) (items : list scored_item) : string :=
  match items with
  | [] => ""
  | item :: rest =>
    str_of_nat (i + 1) +:+ ". " +:+ py_str (source (fst item)) +:+ ": "
    +:+ py_str (headline (fst item)) +:+ nl +:+ digest_lines (S i) rest
  end.

(** The text [send_digest_alert] builds for a non-empty digest. *)
Definition digest_message (digest_items : list scored_item) : string :=
  let message :=
    "SECURITY DIGEST: Top Critical News" +:+ nl +:+ nl
    +:+ digest_lines 0 (take 3 digest_items) in
  if (3 <? List.length digest_items)%nat then
    message +:+ nl +:+ "+" +:+ str_of_nat (List.length digest_items - 3)
    +:+ " more critical alerts."
  else message.

(** [send_digest_alert(phone_number, digest_items)] *)
Definition send_digest_alert {T} `{Platform T} (phone_number : string)
    (digest_items : list scored_item) : M T bool :=
  match digest_items with
  | [] => mret false
  | _ => send_sms_alert phone_number (digest_message digest_items)
  end.

(** ** Running the alert system *)


Definition demo_phone_store (f : text_file) : phone_store :=
  {| phone_file := f; phone_write := Written |}.

(** The character is ASCII. *)
Definition is_ascii (c : ascii) : bool := (N_of_ascii c <? 128)%N.

(** The text is ASCII throughout.  On such text [py_isspace] and
    [py_isdigit] are Python's [str.isspace] and [str.isdigit]. *)
Fixpoint ascii_only (s : string) : bool :=
  match s with
  | EmptyString => true
  | String c s' => is_ascii c && ascii_only s'
  end.


(** A world whose history file cannot be opened for writing. *)
Definition readonly_world (f : file_state) : world (list (string * string)) :=
  {| hist_file := f; hist_writable := false; twilio := []; clock := 1735689600 |}.

(** ** Notions used by the further properties *)

(** The value is a [str]. *)
Definition is_cstr (c : cell) : bool :=
  match c with CStr _ => true | _ => false end.

(** How much weight the classifier gives a class of sources. *)
Definition source_rank (cls : source_class) : nat :=
  match cls with PRIORITY => 2 | MEDIUM_PRIORITY => 1 | UNCLASSIFIED => 0 end.

(** [all([TWILIO_ACCOUNT_SID, TWILIO_AUTH_TOKEN, TWILIO_PHONE_NUMBER])] *)
Definition twilio_configured {T} `{Platform T} : bool :=
  env_set TWILIO_ACCOUNT_SID && env_set TWILIO_AUTH_TOKEN
  && env_set TWILIO_PHONE_NUMBER.

(** A platform whose account identifier is not set. *)
#[global] Instance offline_platform : Platform unit := {|
  TWILIO_ACCOUNT_SID := None;
  TWILIO_AUTH_TOKEN := Some "token";
  TWILIO_PHONE_NUMBER := Some "+15550001111";
  messages_create := fun t _ _ _ => (t, Some "SM0002");
  fromisoformat := demo_fromisoformat;
  isoformat := demo_isoformat
|}.

Definition offline_world (f : file_state) : world unit :=
  {| hist_file := f; hist_writable := true; twilio := tt; clock := 1735689600 |}.

(** The characters of a string. *)
Fixpoint chars (s : string) : list ascii :=
  match s with
  | EmptyString => []
  | String c s' => c :: chars s'
  end.

(** The number a caller ends up with after its [if not phone_number]
    test: none for [None] and for the empty string. *)
Definition usable (phone_number : option string) : option string :=
  match phone_number with
  | Some s => if String.eqb s "" then None else Some s
  | None => None
  end.

(** What a digest line shows of an item. *)
Definition digest_fields (item : scored_item) : cell * cell :=
  (source (fst item), headline (fst item)).

(** Names the three lists of matched keywords in a goal about the rule
    cascade. *)
Ltac cascade text :=
  unfold decide_critical;
  generalize (matches severity_high_keywords text) as high;
  generalize (matches severity_medium_keywords text) as medium;
  generalize (matches severity_low_keywords text) as low;
  intros low medium high.

(** * Properties *)

(** ** Strings *)

Lemma app_string_nil (b : string) : "" +:+ b = b.
Proof. reflexivity. Qed.

Lemma app_string_cons (x : ascii) (a b : string) :
  String x a +:+ b = String x (a +:+ b).
Proof. reflexivity. Qed.

Lemma app_string_assoc (a b c : string) : (a +:+ b) +:+ c = a +:+ (b +:+ c).
Proof.
  induction a as [|x a IH]; [reflexivity |].
  now rewrite !app_string_cons, IH.
Qed.

Lemma startswith_spec (p s : string) :
  PyStr.startswith p s = true ↔ ∃ t, s = p +:+ t.
Proof.
  revert s. induction p as [|a p IH]; intros s; simpl.
  - split; [intros _; now exists s | reflexivity].
  - destruct s as [|b s].
    + split; [discriminate | intros [t Ht]; discriminate].
    + destruct (Ascii.eqb_spec a b) as [->|Hne].
      * rewrite IH. split; intros [t Ht]; exists t.
        -- now rewrite app_string_cons, Ht.
        -- rewrite app_string_cons in Ht. now inversion Ht.
      * split; [discriminate |].
        intros [t Ht]. rewrite app_string_cons in Ht. inversion Ht. congruence.
Qed.

Lemma contains_spec (p s : string) :
  PyStr.contains p s = true ↔ ∃ a b, s = a +:+ p +:+ b.
Proof.
  induction s as [|c s IH]; simpl.
  - rewrite orb_false_r, startswith_spec. split.
    + intros [t Ht]. now exists "", t.
    + intros [a [b Hab]]. destruct a as [|x a]; [now exists b |].
      rewrite app_string_cons in Hab. discriminate.
  - rewrite orb_true_iff, startswith_spec, IH. split.
    + intros [[t Ht] | [a [b Hab]]].
      * now exists "", t.
      * exists (String c a), b. now rewrite app_string_cons, Hab.
    + intros [a [b Hab]]. destruct a as [|x a].
      * left. now exists b.
      * right. exists a, b. rewrite app_string_cons in Hab. now inversion Hab.
Qed.

Lemma contains_trans (p q s : string) :
  PyStr.contains p q = true → PyStr.contains q s = true → PyStr.contains p s = true.
Proof.
  rewrite !contains_spec. intros [a [b ->]] [a' [b' ->]].
  exists (a' +:+ a), (b +:+ b'). now rewrite !app_string_assoc.
Qed.

Lemma lower_app (a b : string) :
  PyStr.lower (a +:+ b) = PyStr.lower a +:+ PyStr.lower b.
Proof.
  induction a as [|x a IH]; [reflexivity |].
  rewrite app_string_cons. simpl. now rewrite IH, app_string_cons.
Qed.

(** ** The classifier *)

Example is_critical_news_ex1 :
  is_critical_news (CStr "Ransomware hits bank") (CStr "") (CStr "CERT-In")
  = Ok (true, "High-priority source (CERT-In) with critical keyword: ransomware").
Proof. vm_compute. reflexivity. Qed.

Example is_critical_news_ex2 :
  is_critical_news (CStr "Ransomware hits bank") (CStr "") (CStr "Some Blog")
  = Ok (false, "").
Proof. vm_compute. reflexivity. Qed.

Example is_critical_news_ex3 :
  is_critical_news (CStr "New PATCH and advisory") (CStr "Security Update") (CStr "Some Blog")
  = Ok (true, "Multiple security keywords: security update, patch, advisory").
Proof. vm_compute. reflexivity. Qed.

Lemma matches_In (kws : list string) (text k : string) :
  In k (matches kws text) ↔ In k kws ∧ PyStr.contains (PyStr.lower k) text = true.
Proof.
  unfold matches.
  apply (List.filter_In (fun keyword => PyStr.contains (PyStr.lower keyword) text) k kws).
Qed.

Lemma In_length_pos {A} (x : A) (l : list A) : In x l → (1 <=? List.length l)%nat = true.
Proof. destruct l; [intros [] | reflexivity]. Qed.

Lemma is_critical_news_str (h c : string) (src : cell) :
  is_critical_news (CStr h) (CStr c) src
  = Ok (decide_critical src (PyStr.lower (h +:+ " " +:+ c))).
Proof. unfold is_critical_news, py_add, py_lower. now rewrite app_string_assoc. Qed.

(** C10.  Whatever the source, a text that contains "data breach" is
    critical: the high keyword "data breach" matches, the medium keyword
    "breach" matches with it, and for a source on neither list the
    high-and-medium rule gives the reason. *)
Theorem data_breach_is_critical (h c : string) (src : cell) :
  let text := PyStr.lower (h +:+ " " +:+ c) in
  PyStr.contains "data breach" text = true →
  In "data breach" (matches severity_high_keywords text)
  ∧ In "breach" (matches severity_medium_keywords text)
  ∧ (∃ reason, is_critical_news (CStr h) (CStr c) src = Ok (true, reason))
  ∧ (cell_in src priority_sources = false →
     cell_in src medium_priority_sources = false →
     is_critical_news (CStr h) (CStr c) src
     = Ok (true, "High and medium severity keywords: "
                 +:+ hd "" (matches severity_high_keywords text) +:+ ", "
                 +:+ hd "" (matches severity_medium_keywords text))).
Proof.
  intros text Hdb.
  assert (Hhigh : In "data breach" (matches severity_high_keywords text)).
  { apply matches_In. split; [simpl; tauto | exact Hdb]. }
  assert (Hmed : In "breach" (matches severity_medium_keywords text)).
  { apply matches_In. split; [simpl; tauto |].
    apply contains_trans with (q := "data breach"); [reflexivity | exact Hdb]. }
  pose proof (In_length_pos _ _ Hhigh) as Lh.
  pose proof (In_length_pos _ _ Hmed) as Lm.
  rewrite is_critical_news_str. fold text.
  split; [exact Hhigh | split; [exact Hmed | split]].
  - unfold decide_critical. rewrite Lh, Lm.
    destruct (cell_in src priority_sources); simpl; [eauto |].
    destruct (cell_in src medium_priority_sources); simpl; eauto.
  - intros Hp Hm. unfold decide_critical. rewrite Lh, Lm, Hp, Hm. reflexivity.
Qed.

Lemma data_breach_is_critical_witness :
  PyStr.contains "data breach"
    (PyStr.lower ("Major Data Breach at a bank" +:+ " " +:+ "")) = true
  ∧ ∃ reason,
      is_critical_news (CStr "Major Data Breach at a bank") (CStr "") (CStr "Some Blog")
      = Ok (true, reason).
Proof.
  split; [reflexivity |].
  apply (data_breach_is_critical "Major Data Breach at a bank" "" (CStr "Some Blog")).
  reflexivity.
Defined.

(** C8.  The identity key does not determine the (source, headline) pair:
    ("A:B", "C") and ("A", "B:C") are different pairs with the same key. *)
Theorem news_id_not_injective :
  ∃ r1 r2 : news_item,
    (source r1, headline r1) ≠ (source r2, headline r2)
    ∧ (source r1, headline r1) = (CStr "A:B", CStr "C")
    ∧ (source r2, headline r2) = (CStr "A", CStr "B:C")
    ∧ news_id r1 = news_id r2.
Proof.
  exists {| source := CStr "A:B"; headline := CStr "C"; content := CStr "";
            date := CStr ""; url := None |},
         {| source := CStr "A"; headline := CStr "B:C"; content := CStr "";
            date := CStr ""; url := None |}.
  repeat split; simpl; congruence.
Qed.

Lemma all_keywords_NoDup :
  NoDup (severity_high_keywords ++ severity_medium_keywords ++ severity_low_keywords).
Proof. apply (bool_decide_unpack _). vm_compute. reflexivity. Qed.

Lemma matches_app (k1 k2 : list string) (text : string) :
  matches (k1 ++ k2) text = matches k1 text ++ matches k2 text.
Proof. unfold matches. apply List.filter_app. Qed.

Lemma matches_NoDup (kws : list string) (text : string) :
  NoDup kws → NoDup (matches kws text).
Proof.
  induction 1 as [|k kws Hk Hnd IH]; simpl; [constructor |].
  destruct (PyStr.contains (PyStr.lower k) text); [| exact IH].
  constructor; [| exact IH].
  intros Hin. apply Hk.
  apply list_elem_of_In in Hin. apply matches_In in Hin.
  apply list_elem_of_In. tauto.
Qed.

Lemma all_matches_NoDup (text : string) :
  NoDup (matches severity_high_keywords text
         ++ matches severity_medium_keywords text
         ++ matches severity_low_keywords text).
Proof.
  rewrite <- !matches_app. apply matches_NoDup, all_keywords_NoDup.
Qed.

Lemma priority_not_medium (src : cell) :
  cell_in src priority_sources = true → cell_in src medium_priority_sources = false.
Proof.
  destruct src as [s| |]; simpl; try discriminate.
  intros Hin. apply orb_true_iff in Hin as [Heq | Hin].
  { apply String.eqb_eq in Heq as ->. reflexivity. }
  apply orb_true_iff in Hin as [Heq | Hin].
  { apply String.eqb_eq in Heq as ->. reflexivity. }
  apply orb_true_iff in Hin as [Heq | Hin].
  { apply String.eqb_eq in Heq as ->. reflexivity. }
  apply orb_true_iff in Hin as [Heq | Hin]; [| discriminate].
  apply String.eqb_eq in Heq as ->. reflexivity.
Qed.

(** C4.  On string fields the classifier returns what the first applicable
    rule among (a) to (f) produces, reason included, and the matched keywords
    it counts are pairwise distinct.  In particular a PRIORITY source with
    exactly one high keyword and no other keyword is critical by rule (a),
    and the same text from an unclassified source is not critical. *)
Theorem rule_precedence (h c : string) (src : cell) :
  let text := PyStr.lower (h +:+ " " +:+ c) in
  let high := matches severity_high_keywords text in
  let medium := matches severity_medium_keywords text in
  let low := matches severity_low_keywords text in
  is_critical_news (CStr h) (CStr c) src
  = Ok (rule_verdict (first_rule (classify_source src) high medium low)
          src high medium low)
  ∧ NoDup (high ++ medium ++ low)
  ∧ (classify_source src = PRIORITY →
     List.length high = 1 → medium = [] → low = [] →
     first_rule (classify_source src) high medium low = RuleA
     ∧ is_critical_news (CStr h) (CStr c) src
       = Ok (true, "High-priority source (" +:+ py_str src
                   +:+ ") with critical keyword: " +:+ hd "" high)
     ∧ ∀ src', classify_source src' = UNCLASSIFIED →
         first_rule (classify_source src') high medium low = RuleF
         ∧ is_critical_news (CStr h) (CStr c) src' = Ok (false, "")).
Proof.
  intros text high medium low.
  assert (Hgen : ∀ s, is_critical_news (CStr h) (CStr c) s
                 = Ok (rule_verdict (first_rule (classify_source s) high medium low)
                         s high medium low)).
  { intros s. rewrite is_critical_news_str. fold text. f_equal.
    unfold decide_critical, first_rule, classify_source.
    fold high medium low.
    destruct (cell_in s priority_sources) eqn:Hp;
      [rewrite (priority_not_medium s Hp) | destruct (cell_in s medium_priority_sources)];
      destruct (1 <=? List.length high)%nat;
      destruct (2 <=? List.length medium)%nat;
      destruct (1 <=? List.length medium)%nat;
      destruct (3 <=? List.length (high ++ medium ++ low))%nat;
      reflexivity. }
  split; [apply Hgen | split; [apply all_matches_NoDup |]].
  intros Hcls Hh Hm Hl.
  assert (HA : first_rule (classify_source src) high medium low = RuleA).
  { unfold first_rule. rewrite Hcls, Hh. reflexivity. }
  split; [exact HA | split].
  - rewrite Hgen, HA. reflexivity.
  - intros src' Hun.
    assert (HF : first_rule (classify_source src') high medium low = RuleF).
    { unfold first_rule. rewrite Hun, Hh, Hm, Hl.
      destruct high as [|k [|k' high']]; try discriminate. reflexivity. }
    split; [exact HF |]. rewrite Hgen, HF. reflexivity.
Qed.

Lemma rule_precedence_witness :
  is_critical_news (CStr "Ransomware hits bank") (CStr "") (CStr "CERT-In")
  = Ok (true, "High-priority source (CERT-In) with critical keyword: ransomware")
  ∧ is_critical_news (CStr "Ransomware hits bank") (CStr "") (CStr "Some Blog")
    = Ok (false, "").
Proof.
  destruct (rule_precedence "Ransomware hits bank" "" (CStr "CERT-In"))
    as (_ & _ & Hb).
  destruct Hb as (_ & Ha & Hu); try (vm_compute; reflexivity).
  split.
  - rewrite Ha. vm_compute. reflexivity.
  - apply (Hu (CStr "Some Blog")). vm_compute. reflexivity.
Defined.

(** C3.  A field that is not a string makes the classifier raise: NaN for
    an empty content cell, or [None] for the headline.  The digest, on the
    same rows, reads such a field as the empty string. *)
Theorem is_critical_news_raises_on_missing_field :
  is_critical_news (CStr "Critical ransomware outbreak") CNaN (CStr "CERT-In")
  = Raise TypeError
  ∧ is_critical_news CNone (CStr "critical ransomware outbreak") (CStr "CERT-In")
    = Raise TypeError
  ∧ is_critical_news (CStr "Critical ransomware outbreak") (CStr "") (CStr "CERT-In")
    = Ok (true, "High-priority source (CERT-In) with critical keyword: critical")
  ∧ digest_text {| source := CStr "CERT-In";
                   headline := CStr "Critical ransomware outbreak";
                   content := CNaN; date := CNaN; url := None |}
    = "critical ransomware outbreak ".
Proof. repeat split; vm_compute; reflexivity. Qed.

(** ** The history store *)

(** C7, as stated, fails: a file holding the JSON list [[]] is not an alert
    history, yet it is what [load_alert_history] returns. *)
Lemma load_wrong_shape_counterexample :
  ¬ (∀ w : world (list (string * string)),
       unusable_store (hist_file w) →
       snd (load_alert_history w) = Ok empty_history).
Proof.
  intros Hall.
  specialize (Hall (demo_world (Doc (JList []))) eq_refl).
  discriminate Hall.
Qed.

(** C7, amended.  [load_alert_history] never raises and leaves the world as
    it is.  With no file, an unreadable file or a file that is not JSON it
    returns the fresh history, whose [alerts_sent] is empty and whose
    [last_check] is null; a file that parses is returned as parsed. *)
Theorem load_alert_history_total {T} (w : world T) :
  (∃ j, load_alert_history w = (w, Ok j))
  ∧ (hist_file w = Absent ∨ hist_file w = Unreadable ∨ hist_file w = Garbled →
     load_alert_history w = (w, Ok empty_history))
  ∧ (∀ j, hist_file w = Doc j → load_alert_history w = (w, Ok j))
  ∧ (∃ m, empty_history = JObj m
          ∧ m !! "alerts_sent" = Some (JList [])
          ∧ m !! "last_check" = Some JNull).
Proof.
  unfold load_alert_history. split; [| split; [| split]].
  - destruct (hist_file w); eauto.
  - intros [-> | [-> | ->]]; reflexivity.
  - intros j ->. reflexivity.
  - eexists. split; [reflexivity |]. split; vm_compute; reflexivity.
Qed.

Lemma load_alert_history_total_witness :
  load_alert_history (demo_world Garbled) = (demo_world Garbled, Ok empty_history)
  ∧ load_alert_history (demo_world (Doc (JList [])))
    = (demo_world (Doc (JList [])), Ok (JList [])).
Proof.
  split.
  - destruct (load_alert_history_total (demo_world Garbled)) as (_ & Hfresh & _).
    apply Hfresh. right. right. reflexivity.
  - destruct (load_alert_history_total (demo_world (Doc (JList [])))) as (_ & _ & Hdoc & _).
    apply Hdoc. reflexivity.
Defined.

(** What a wrongly shaped document does downstream: the dispatcher calls
    [history.get] on it and the batch ends with [AttributeError]. *)
Example wrong_shape_aborts_check :
  check_for_alerts [demo_item "CERT-In" "Critical ransomware outbreak" ""]
    (Some "+15550002222") (demo_world (Doc (JList [])))
  = (demo_world (Doc (JList [])), Raise AttributeError).
Proof. vm_compute. reflexivity. Qed.

(** ** The dispatcher *)

(** With the empty string as destination nothing is sent and the loop
    variables that feed the history stay as they were. *)
Lemma loop_body_empty_phone {T} `{Platform T} (st : loop_state) (row : news_item)
    (w w' : world T) (r : result loop_state) :
  loop_body "" st row w = (w', r) →
  w' = w ∧ ∀ st', r = Ok st' →
    already_alerted_ids st' = already_alerted_ids st
    ∧ alerts_sent st' = alerts_sent st.
Proof.
  unfold loop_body. unfold_M.
  destruct (json_contains (news_id row) (already_alerted_ids st)) as [[|]|e].
  - intros [= <- <-]. split; [reflexivity |]. intros st' [= <-]. auto.
  - destruct (is_critical_news (headline row) (content row) (source row))
      as [[[|] reason]|e]; simpl.
    + intros [= <- <-]. split; [reflexivity |]. intros st' [= <-]. auto.
    + intros [= <- <-]. split; [reflexivity |]. intros st' [= <-]. auto.
    + intros [= <- <-]. split; [reflexivity |]. intros st' [=].
  - intros [= <- <-]. split; [reflexivity |]. intros st' [=].
Qed.

Lemma for_rows_empty_phone {T} `{Platform T} (rows : list news_item)
    (st : loop_state) (w w' : world T) (r : result loop_state) :
  for_rows "" rows st w = (w', r) →
  w' = w ∧ ∀ st', r = Ok st' →
    already_alerted_ids st' = already_alerted_ids st
    ∧ alerts_sent st' = alerts_sent st.
Proof.
  revert st w. induction rows as [|row rows IH]; intros st w; simpl.
  - unfold_M. intros [= <- <-]. split; [reflexivity |]. intros st' [= <-]. auto.
  - unfold mbind, M_bind.
    destruct (loop_body "" st row w) as [w1 [st1|e]] eqn:Hbody.
    + apply loop_body_empty_phone in Hbody as [-> Hst1].
      destruct (Hst1 st1 eq_refl) as [Hids Hsent].
      intros Hrest. apply IH in Hrest as [-> Hst'].
      split; [reflexivity |]. intros st' Hr.
      destruct (Hst' st' Hr) as [-> ->]. auto.
    + apply loop_body_empty_phone in Hbody as [-> _].
      intros [= <- <-]. split; [reflexivity |]. intros st' [=].
Qed.

(** C2, as stated, fails for the empty string: the run goes on, reports the
    critical row and stores a history with a new [last_check]. *)
Lemma empty_destination_counterexample :
  let w := demo_world (Doc empty_history) in
  let rows := [demo_item "CERT-In" "Critical ransomware outbreak" ""] in
  rows ≠ []
  ∧ check_for_alerts rows (Some "") w
    = (set_hist_file
         (Doc (JObj (<["alerts_sent" := JList []]>
                       (<["last_check" := JStr "2025-01-01T00:00:00"]> ∅)))) w,
       Ok (rows, false))
  ∧ check_for_alerts rows (Some "") w ≠ (w, Ok ([], false)).
Proof.
  intros w rows.
  assert (Hrun : check_for_alerts rows (Some "") w
    = (set_hist_file
         (Doc (JObj (<["alerts_sent" := JList []]>
                       (<["last_check" := JStr "2025-01-01T00:00:00"]> ∅)))) w,
       Ok (rows, false))) by (vm_compute; reflexivity).
  split; [discriminate | split; [exact Hrun |]].
  rewrite Hrun. intros [=].
Qed.

Lemma load_alert_history_stored {T} (w : world T) :
  load_alert_history w = (w, Ok (stored_history (hist_file w))).
Proof. unfold load_alert_history. destruct (hist_file w); reflexivity. Qed.

(** [check_for_alerts] with a destination, step by step. *)
Lemma check_for_alerts_unfold {T} `{Platform T} (rows : list news_item)
    (phone : string) (w : world T) :
  check_for_alerts rows (Some phone) w
  = match stored_history (hist_file w) with
    | JObj h =>
      match for_rows phone rows (initial_state h) w with
      | (w2, Ok st) =>
        (if hist_writable w2
         then set_hist_file
                (Doc (updated_history h (clock w) (already_alerted_ids st))) w2
         else w2,
         Ok (critical_items st, (0 <? alerts_sent st)%nat))
      | (w2, Raise e) => (w2, Raise e)
      end
    | _ => (w, Raise AttributeError)
    end.
Proof.
  unfold check_for_alerts. unfold mbind at 1. unfold M_bind.
  rewrite load_alert_history_stored.
  destruct (stored_history (hist_file w)); try reflexivity.
  unfold_M. destruct (for_rows phone rows (initial_state m) w) as [w2 [st|e]];
    [| reflexivity].
  unfold save_alert_history, updated_history.
  destruct (hist_writable w2); reflexivity.
Qed.

(** Only the Twilio side of the world changes while rows are processed. *)
Lemma send_sms_alert_frame {T} `{Platform T} (to msg : string) (w w' : world T)
    (r : result bool) :
  send_sms_alert to msg w = (w', r) →
  hist_file w' = hist_file w ∧ hist_writable w' = hist_writable w
  ∧ clock w' = clock w ∧ ∃ ok, r = Ok ok.
Proof.
  unfold send_sms_alert.
  destruct (negb _).
  - intros [= <- <-]. eauto.
  - destruct (messages_create _ _ _ _) as [t' [sid|]]; intros [= <- <-]; simpl; eauto.
Qed.

Lemma loop_body_frame {T} `{Platform T} (phone : string) (st : loop_state)
    (row : news_item) (w w' : world T) (r : result loop_state) :
  loop_body phone st row w = (w', r) →
  hist_file w' = hist_file w ∧ hist_writable w' = hist_writable w
  ∧ clock w' = clock w.
Proof.
  unfold loop_body. unfold_M.
  destruct (json_contains _ _) as [[|]|e]; try (intros [= <- <-]; auto).
  destruct (is_critical_news _ _ _) as [[[|] reason]|e]; simpl;
    try (intros [= <- <-]; auto).
  destruct (negb _); try (intros [= <- <-]; auto).
  destruct (send_sms_alert _ _ w) as [w1 r1] eqn:Hsend.
  apply send_sms_alert_frame in Hsend as (Hf & Hw & Hc & ok & ->).
  destruct ok.
  - destruct (json_append _ _); intros [= <- <-]; auto.
  - intros [= <- <-]; auto.
Qed.

Lemma for_rows_frame {T} `{Platform T} (phone : string) (rows : list news_item)
    (st : loop_state) (w w' : world T) (r : result loop_state) :
  for_rows phone rows st w = (w', r) →
  hist_file w' = hist_file w ∧ hist_writable w' = hist_writable w
  ∧ clock w' = clock w.
Proof.
  revert st w. induction rows as [|row rows IH]; intros st w; simpl.
  - unfold_M. intros [= <- <-]. auto.
  - unfold mbind, M_bind.
    destruct (loop_body phone st row w) as [w1 [st1|e]] eqn:Hbody;
      apply loop_body_frame in Hbody as (Hf & Hw & Hc).
    + intros Hrest. apply IH in Hrest as (Hf' & Hw' & Hc').
      rewrite Hf', Hw', Hc'. auto.
    + intros [= <- <-]. auto.
Qed.

Lemma stored_ids_saved {T} `{Platform T} (h : gmap string json) (now : Z)
    (ids : json) (w : world T) :
  stored_ids (set_hist_file (Doc (updated_history h now ids)) w) = ids.
Proof.
  unfold stored_ids. rewrite load_alert_history_stored. simpl.
  unfold initial_state. simpl. now rewrite lookup_insert_eq.
Qed.

Lemma stored_ids_initial {T} (h : gmap string json) (w : world T) :
  stored_history (hist_file w) = JObj h →
  stored_ids w = already_alerted_ids (initial_state h).
Proof.
  intros Hh. unfold stored_ids. rewrite load_alert_history_stored. simpl.
  now rewrite Hh.
Qed.

(** C2, amended.  With no destination ([None]) the call returns
    [([], False)] at once and the world, history file included, is untouched.
    With the empty string nothing is sent either, the returned flag is false
    and the stored identifiers are the ones the run started from. *)
Theorem no_destination_short_circuit {T} `{Platform T} (rows : list news_item)
    (w : world T) :
  check_for_alerts rows None w = (w, Ok ([], false))
  ∧ ∀ w' r, check_for_alerts rows (Some "") w = (w', r) →
      twilio w' = twilio w
      ∧ ∀ crit any_sent, r = Ok (crit, any_sent) →
          any_sent = false ∧ stored_ids w' = stored_ids w.
Proof.
  split; [reflexivity |].
  intros w' r. rewrite check_for_alerts_unfold.
  destruct (stored_history (hist_file w)) as [| | | | |h] eqn:Hh;
    try (intros [= <- <-]; split; [reflexivity | intros ? ? [=]]).
  destruct (for_rows "" rows (initial_state h) w) as [w2 [st|e]] eqn:Hrun.
  - apply for_rows_empty_phone in Hrun as [-> Hst].
    destruct (Hst st eq_refl) as [Hids Hsent].
    intros [= <- <-]. split.
    + destruct (hist_writable w); reflexivity.
    + intros crit any_sent [= <- <-]. rewrite Hsent. split; [reflexivity |].
      rewrite (stored_ids_initial h w Hh).
      destruct (hist_writable w).
      * rewrite stored_ids_saved. exact Hids.
      * exact (stored_ids_initial h w Hh).
  - apply for_rows_empty_phone in Hrun as [-> _].
    intros [= <- <-]. split; [reflexivity | intros ? ? [=]].
Qed.

Lemma no_destination_short_circuit_witness :
  let w := demo_world (Doc empty_history) in
  let rows := [demo_item "CERT-In" "Critical ransomware outbreak" ""] in
  twilio (fst (check_for_alerts rows (Some "") w)) = twilio w
  ∧ check_for_alerts rows None w = (w, Ok ([], false)).
Proof.
  intros w rows.
  destruct (no_destination_short_circuit rows w) as [Hnone Hempty].
  split; [| exact Hnone].
  destruct (check_for_alerts rows (Some "") w) as [w' r] eqn:Hrun.
  exact (proj1 (Hempty w' r eq_refl)).
Defined.

(** *** Processing rows reads nothing but the Twilio side *)

Lemma send_sms_alert_twilio {T} `{Platform T} (to msg : string) (w1 w2 : world T) :
  twilio w1 = twilio w2 →
  snd (send_sms_alert to msg w1) = snd (send_sms_alert to msg w2)
  ∧ twilio (fst (send_sms_alert to msg w1)) = twilio (fst (send_sms_alert to msg w2)).
Proof.
  intros Ht. unfold send_sms_alert. rewrite Ht.
  destruct (negb _); [auto |].
  destruct (messages_create _ _ _ _) as [t' [sid|]]; auto.
Qed.

Lemma loop_body_twilio {T} `{Platform T} (phone : string) (st : loop_state)
    (row : news_item) (w1 w2 : world T) :
  twilio w1 = twilio w2 →
  snd (loop_body phone st row w1) = snd (loop_body phone st row w2)
  ∧ twilio (fst (loop_body phone st row w1)) = twilio (fst (loop_body phone st row w2)).
Proof.
  intros Ht. unfold loop_body. unfold_M.
  destruct (json_contains _ _) as [[|]|e]; auto.
  destruct (is_critical_news _ _ _) as [[[|] reason]|e]; simpl; auto.
  destruct (negb _); auto.
  destruct (send_sms_alert_twilio phone (format_alert_message row) w1 w2 Ht)
    as [Hr Hw].
  destruct (send_sms_alert _ _ w1) as [w1' r1].
  destruct (send_sms_alert _ _ w2) as [w2' r2].
  simpl in Hr, Hw. subst r2.
  destruct r1 as [[|]|e]; auto.
  destruct (json_append _ _); auto.
Qed.

Lemma for_rows_twilio {T} `{Platform T} (phone : string) (rows : list news_item)
    (st : loop_state) (w1 w2 : world T) :
  twilio w1 = twilio w2 →
  snd (for_rows phone rows st w1) = snd (for_rows phone rows st w2)
  ∧ twilio (fst (for_rows phone rows st w1)) = twilio (fst (for_rows phone rows st w2)).
Proof.
  revert st w1 w2. induction rows as [|row rows IH]; intros st w1 w2 Ht; simpl.
  - unfold_M. auto.
  - unfold mbind, M_bind.
    destruct (loop_body_twilio phone st row w1 w2 Ht) as [Hr Hw].
    destruct (loop_body phone st row w1) as [w1' r1].
    destruct (loop_body phone st row w2) as [w2' r2].
    simpl in Hr, Hw. subst r2.
    destruct r1 as [st1|e]; [apply IH; exact Hw | auto].
Qed.

Lemma updated_history_erases_last_check {T} `{Platform T}
    (h1 h2 : gmap string json) (now : Z) (ids : json) :
  delete "last_check" h1 = delete "last_check" h2 →
  updated_history h1 now ids = updated_history h2 now ids.
Proof.
  intros Hd. unfold updated_history. do 2 f_equal.
  rewrite <- (insert_delete_eq h1), <- (insert_delete_eq h2). now rewrite Hd.
Qed.

(** C9.  Two runs on the same rows, with the same destination and the same
    Twilio state, whose loaded histories differ at most in what [last_check]
    holds (nothing, a date, or anything else), end alike: the same result or
    the same exception, the same Twilio state, and the same stored
    identifiers.  When both also run at the same time, the file written is
    the same. *)
Theorem last_check_noninterference {T} `{Platform T} (rows : list news_item)
    (phone : option string) (w1 w2 : world T) (h1 h2 : gmap string json) :
  stored_history (hist_file w1) = JObj h1 →
  stored_history (hist_file w2) = JObj h2 →
  delete "last_check" h1 = delete "last_check" h2 →
  hist_writable w1 = hist_writable w2 →
  twilio w1 = twilio w2 →
  snd (check_for_alerts rows phone w1) = snd (check_for_alerts rows phone w2)
  ∧ twilio (fst (check_for_alerts rows phone w1))
    = twilio (fst (check_for_alerts rows phone w2))
  ∧ stored_ids (fst (check_for_alerts rows phone w1))
    = stored_ids (fst (check_for_alerts rows phone w2))
  ∧ (clock w1 = clock w2 →
     ∀ p res, phone = Some p → hist_writable w1 = true →
       snd (check_for_alerts rows phone w1) = Ok res →
       hist_file (fst (check_for_alerts rows phone w1))
       = hist_file (fst (check_for_alerts rows phone w2))).
Proof.
  intros Hh1 Hh2 Hd Hwr Ht.
  assert (Hinit : initial_state h1 = initial_state h2).
  { unfold initial_state. f_equal.
    rewrite <- (lookup_delete_ne h1 "last_check" "alerts_sent") by discriminate.
    rewrite <- (lookup_delete_ne h2 "last_check" "alerts_sent") by discriminate.
    now rewrite Hd. }
  assert (Hids : stored_ids w1 = stored_ids w2).
  { rewrite (stored_ids_initial h1 w1 Hh1), (stored_ids_initial h2 w2 Hh2).
    now rewrite Hinit. }
  destruct phone as [p|];
    [| simpl; repeat split; auto; intros _ p' res [=]].
  rewrite !check_for_alerts_unfold, Hh1, Hh2, Hinit.
  destruct (for_rows_twilio p rows (initial_state h2) w1 w2 Ht) as [Hr Hw].
  destruct (for_rows p rows (initial_state h2) w1) as [w1' r1] eqn:Hrun1.
  destruct (for_rows p rows (initial_state h2) w2) as [w2' r2] eqn:Hrun2.
  simpl in Hr, Hw. subst r2.
  apply for_rows_frame in Hrun1 as (Hf1 & Hw1 & Hc1).
  apply for_rows_frame in Hrun2 as (Hf2 & Hw2 & Hc2).
  destruct r1 as [st|e]; simpl.
  - rewrite Hw1, Hw2, <- Hwr.
    destruct (hist_writable w1); simpl.
    + rewrite !stored_ids_saved. repeat split; auto.
      intros Hc p' res _ _ _. 
      rewrite Hc. f_equal. now apply updated_history_erases_last_check.
    + repeat split; auto.
      * unfold stored_ids in *. rewrite !load_alert_history_stored in *.
        simpl in *. now rewrite Hf1, Hf2.
      * intros _ p' res _ [=].
  - repeat split; auto.
    + unfold stored_ids in *. rewrite !load_alert_history_stored in *.
      simpl in *. now rewrite Hf1, Hf2.
    + intros _ p' res _ _ [=].
Qed.

Lemma last_check_noninterference_witness :
  let rows := [demo_item "CERT-In" "Critical ransomware outbreak" "";
               demo_item "Some Blog" "Weekly notes" "nothing new"] in
  let w1 := demo_world Absent in
  let w2 := demo_world
              (Doc (JObj (<["alerts_sent" := JList []]>
                            (<["last_check" := JNum 5]> ∅)))) in
  snd (check_for_alerts rows (Some "+15550002222") w1)
  = snd (check_for_alerts rows (Some "+15550002222") w2)
  ∧ snd (check_for_alerts rows (Some "+15550002222") w1)
    = Ok ([demo_item "CERT-In" "Critical ransomware outbreak" ""], true).
Proof.
  intros rows w1 w2. split; [| vm_compute; reflexivity].
  refine (proj1 (last_check_noninterference rows (Some "+15550002222") w1 w2
                   (<["alerts_sent" := JList []]> (<["last_check" := JNull]> ∅))
                   (<["alerts_sent" := JList []]> (<["last_check" := JNum 5]> ∅))
                   _ _ _ _ _)); vm_compute; reflexivity.
Defined.

(** ** The digest *)

Lemma insert_desc_perm {A} (key : A → Z) (x : A) (l : list A) :
  Permutation (insert_desc key x l) (x :: l).
Proof.
  induction l as [|y l IH]; simpl; [reflexivity |].
  destruct (key x <? key y)%Z; [| reflexivity].
  rewrite IH. apply perm_swap.
Qed.

Lemma sort_desc_perm {A} (key : A → Z) (l : list A) :
  Permutation (sort_desc key l) l.
Proof.
  induction l as [|x l IH]; simpl; [reflexivity |].
  rewrite insert_desc_perm. now constructor.
Qed.

Lemma insert_desc_sorted {A} (key : A → Z) (x : A) (l : list A) :
  StronglySorted (fun a b => (key b <= key a)%Z) l →
  StronglySorted (fun a b => (key b <= key a)%Z) (insert_desc key x l).
Proof.
  induction 1 as [|y l Hs IH Hall]; simpl.
  - repeat constructor.
  - destruct (Z.ltb_spec (key x) (key y)) as [Hlt | Hge].
    + constructor; [exact IH |].
      rewrite List.Forall_forall. intros z Hz.
      apply (Permutation_in _ (insert_desc_perm key x l)) in Hz as [<- | Hz].
      * lia.
      * rewrite List.Forall_forall in Hall. now apply Hall.
    + constructor; [now constructor |].
      constructor; [exact Hge |].
      rewrite List.Forall_forall in *. intros z Hz. specialize (Hall z Hz). lia.
Qed.

Lemma sort_desc_sorted {A} (key : A → Z) (l : list A) :
  StronglySorted (fun a b => (key b <= key a)%Z) (sort_desc key l).
Proof.
  induction l as [|x l IH]; simpl; [constructor | now apply insert_desc_sorted].
Qed.

(** Stability: among the items with one key, the order is the input's. *)
Lemma insert_desc_stable {A} (key : A → Z) (s : Z) (x : A) (l : list A) :
  List.filter (fun y => (key y =? s)%Z) (insert_desc key x l)
  = List.filter (fun y => (key y =? s)%Z) (x :: l).
Proof.
  induction l as [|y l IH]; [reflexivity |].
  simpl insert_desc.
  destruct (Z.ltb_spec (key x) (key y)) as [Hlt | Hge]; [| reflexivity].
  simpl in *. rewrite IH.
  destruct (Z.eqb_spec (key x) s) as [Hx | Hx];
    destruct (Z.eqb_spec (key y) s) as [Hy | Hy]; try reflexivity.
  lia.
Qed.

Lemma sort_desc_stable {A} (key : A → Z) (s : Z) (l : list A) :
  List.filter (fun y => (key y =? s)%Z) (sort_desc key l)
  = List.filter (fun y => (key y =? s)%Z) l.
Proof.
  induction l as [|x l IH]; [reflexivity |].
  simpl sort_desc. rewrite insert_desc_stable. simpl. now rewrite IH.
Qed.

Lemma fold_keyword_scores (text : string) (table : list (string * Z)) (acc : Z) :
  fold_left
    (fun a kv => if PyStr.contains (PyStr.lower (fst kv)) text
                 then (a + snd kv)%Z else a) table acc
  = (acc + list_sum_Z
             (map snd (List.filter
                         (fun kv => PyStr.contains (PyStr.lower (fst kv)) text)
                         table)))%Z.
Proof.
  revert acc. induction table as [|kv table IH]; intros acc; simpl.
  - unfold list_sum_Z. simpl. lia.
  - rewrite IH. destruct (PyStr.contains _ _); simpl; unfold list_sum_Z; simpl; lia.
Qed.

Lemma criticality_score_sum (row : news_item) :
  criticality_score row = score_by_sum row.
Proof.
  unfold criticality_score, add_keyword_scores, score_by_sum.
  rewrite fold_keyword_scores. lia.
Qed.

(** On string fields the digest searches the text the classifier searches. *)
Lemma digest_text_str (row : news_item) (h c : string) :
  headline row = CStr h → content row = CStr c →
  digest_text row = PyStr.lower (h +:+ " " +:+ c).
Proof.
  intros Hh Hc. unfold digest_text. rewrite Hh, Hc. simpl.
  now rewrite !lower_app.
Qed.

Lemma score_rows_cons (row : news_item) (rest : list news_item) :
  score_rows (row :: rest)
  = if (10 <=? criticality_score row)%Z
    then (row, criticality_score row) :: score_rows rest
    else score_rows rest.
Proof. reflexivity. Qed.

Lemma score_rows_qualifying (news_df : list news_item) :
  score_rows news_df = qualifying news_df.
Proof.
  unfold qualifying. induction news_df as [|row rest IH]; [reflexivity |].
  rewrite score_rows_cons, criticality_score_sum, IH.
  cbn [List.filter].
  destruct (10 <=? score_by_sum row)%Z; reflexivity.
Qed.

Lemma severity_scores_keys_NoDup : NoDup (map fst severity_scores).
Proof. apply (bool_decide_unpack _). vm_compute. reflexivity. Qed.

(** C5.  For a count [max_items] the digest is the first [max_items] items
    of a ranking of exactly the rows with score at least 10, where the score
    is the points of the source plus the weight of every table keyword found
    in the lowered text, each keyword once; the ranking has the largest score
    first and keeps the input order among equal scores.  Rows scoring 15, 30
    and 15, in that order, give the second then the first when two items are
    asked for. *)
Theorem digest_postcondition (news_df : list news_item) (max_items : Z) :
  (0 <= max_items)%Z →
  (∃ ranked,
      get_critical_news_digest news_df max_items = take (Z.to_nat max_items) ranked
      ∧ Permutation ranked (qualifying news_df)
      ∧ StronglySorted descending ranked
      ∧ ∀ s, with_score s ranked = with_score s (qualifying news_df))
  ∧ (∀ row, criticality_score row = score_by_sum row)
  ∧ NoDup (map fst severity_scores)
  ∧ (∀ a b c,
       score_by_sum a = 15%Z → score_by_sum b = 30%Z → score_by_sum c = 15%Z →
       get_critical_news_digest [a; b; c] 2 = [(b, 30%Z); (a, 15%Z)]).
Proof.
  intros Hmax. split; [| split; [| split]].
  - exists (sort_desc snd (score_rows news_df)).
    unfold get_critical_news_digest, py_slice_to.
    destruct (Z.ltb_spec max_items 0) as [Hneg | _]; [lia |].
    rewrite score_rows_qualifying.
    split; [reflexivity | split; [apply sort_desc_perm | split]].
    + apply sort_desc_sorted.
    + intros s. apply sort_desc_stable.
  - apply criticality_score_sum.
  - apply severity_scores_keys_NoDup.
  - intros a b c Ha Hb Hc.
    unfold get_critical_news_digest.
    rewrite !score_rows_cons, !criticality_score_sum, Ha, Hb, Hc.
    reflexivity.
Qed.

Lemma digest_postcondition_witness :
  let a := demo_item "The Hindu" "Critical flaw found" "" in
  let b := demo_item "CERT-In" "Critical and urgent notice" "" in
  let c := demo_item "The Hindu" "Urgent notice" "" in
  (0 <= 2)%Z
  ∧ score_by_sum a = 15%Z ∧ score_by_sum b = 30%Z ∧ score_by_sum c = 15%Z
  ∧ get_critical_news_digest [a; b; c] 2 = [(b, 30%Z); (a, 15%Z)].
Proof.
  intros a b c.
  assert (H0 : (0 <= 2)%Z) by lia.
  assert (Ha : score_by_sum a = 15%Z) by (vm_compute; reflexivity).
  assert (Hb : score_by_sum b = 30%Z) by (vm_compute; reflexivity).
  assert (Hc : score_by_sum c = 15%Z) by (vm_compute; reflexivity).
  repeat (split; [assumption |]).
  destruct (digest_postcondition [a; b; c] 2 H0) as (_ & _ & _ & Hex).
  exact (Hex a b c Ha Hb Hc).
Defined.

(** A negative bound is a Python slice bound: it counts from the end. *)
Example digest_negative_bound :
  let a := demo_item "The Hindu" "Critical flaw found" "" in
  let b := demo_item "CERT-In" "Critical and urgent notice" "" in
  let c := demo_item "The Hindu" "Urgent notice" "" in
  get_critical_news_digest [a; b; c] (-1) = [(b, 30%Z); (a, 15%Z)]
  ∧ get_critical_news_digest [a; b; c] 5 = [(b, 30%Z); (a, 15%Z); (c, 15%Z)]
  ∧ get_critical_news_digest [a; b; c] 0 = [].
Proof. repeat split; vm_compute; reflexivity. Qed.

(** ** Runs of the dispatcher over a batch *)

Lemma for_rows_cons {T} `{Platform T} (phone : string) (row : news_item)
    (rest : list news_item) (st : loop_state) (w : world T) :
  for_rows phone (row :: rest) st w
  = match loop_body phone st row w with
    | (w1, Ok st1) => for_rows phone rest st1 w1
    | (w1, Raise e) => (w1, Raise e)
    end.
Proof. reflexivity. Qed.

Lemma for_rows_nil {T} `{Platform T} (phone : string) (st : loop_state) (w : world T) :
  for_rows phone [] st w = (w, Ok st).
Proof. reflexivity. Qed.

Lemma for_rows_app {T} `{Platform T} (phone : string) (a b : list news_item)
    (st : loop_state) (w : world T) :
  for_rows phone (a ++ b) st w
  = match for_rows phone a st w with
    | (w1, Ok st1) => for_rows phone b st1 w1
    | (w1, Raise e) => (w1, Raise e)
    end.
Proof.
  revert st w. induction a as [|x a IH]; intros st w; [reflexivity |].
  rewrite <- app_comm_cons, !for_rows_cons.
  destruct (loop_body phone st x w) as [w1 [st1|e]]; [apply IH | reflexivity].
Qed.

(** A row whose identifier is already known is passed over. *)
Lemma loop_body_skip {T} `{Platform T} (phone : string) (st : loop_state)
    (row : news_item) (w : world T) :
  json_contains (news_id row) (already_alerted_ids st) = Ok true →
  loop_body phone st row w = (w, Ok st).
Proof. intros Hin. unfold loop_body. unfold_M. now rewrite Hin. Qed.

(** What a send does to the loop variables. *)
Lemma loop_body_sends {T} `{Platform T} (phone : string) (st : loop_state)
    (row : news_item) (w w' : world T) (ok : bool) :
  sends phone st row w w' ok →
  loop_body phone st row w
  = (w',
     if ok then
       match json_append (news_id row) (already_alerted_ids st) with
       | Ok ids =>
         Ok {| already_alerted_ids := ids;
               critical_items := critical_items st ++ [row];
               alerts_sent := S (alerts_sent st) |}
       | Raise e => Raise e
       end
     else
       Ok {| already_alerted_ids := already_alerted_ids st;
             critical_items := critical_items st ++ [row];
             alerts_sent := alerts_sent st |}).
Proof.
  intros (Hnew & [reason Hcrit] & Hphone & Hsend).
  unfold loop_body. unfold_M. rewrite Hnew, Hcrit. simpl.
  destruct (String.eqb_spec phone "") as [-> | _]; [contradiction |]. simpl.
  rewrite Hsend. destruct ok; [| reflexivity].
  destruct (json_append _ _); reflexivity.
Qed.

(** Every way a row can be processed without an exception: either the
    identifiers are left alone and nothing was delivered, or a send
    succeeded and the identifier of the row was appended. *)
Lemma loop_body_inv {T} `{Platform T} (phone : string) (st st' : loop_state)
    (row : news_item) (w w' : world T) :
  loop_body phone st row w = (w', Ok st') →
  (already_alerted_ids st' = already_alerted_ids st
   ∧ alerts_sent st' = alerts_sent st
   ∧ ∀ w'', ¬ sends phone st row w w'' true)
  ∨ (sends phone st row w w' true
     ∧ json_append (news_id row) (already_alerted_ids st)
       = Ok (already_alerted_ids st')).
Proof.
  unfold loop_body, sends. unfold_M.
  destruct (json_contains _ _) as [[|]|e] eqn:Hin; try discriminate.
  { intros [= <- <-]. left. repeat split. intros w'' (Hc & _). discriminate. }
  destruct (is_critical_news _ _ _) as [[[|] reason]|e] eqn:Hcrit; simpl;
    try discriminate.
  2:{ intros [= <- <-]. left. repeat split.
      intros w'' (_ & [reason' Hc] & _). discriminate. }
  destruct (String.eqb_spec phone "") as [-> | Hphone]; simpl.
  { intros [= <- <-]. left. repeat split. intros w'' (_ & _ & Hp & _). now apply Hp. }
  destruct (send_sms_alert _ _ w) as [w1 r1] eqn:Hsend.
  destruct (send_sms_alert_frame _ _ _ _ _ Hsend) as (_ & _ & _ & ok & ->).
  destruct ok.
  - destruct (json_append _ _) as [ids|e] eqn:Happ; try discriminate.
    intros [= <- <-]. right. simpl. repeat split; eauto.
  - intros [= <- <-]. left. repeat split.
    intros w'' (_ & _ & _ & [=]).
Qed.

Lemma json_append_keeps (k k' : string) (ids ids' : json) :
  json_append k' ids = Ok ids' →
  json_contains k ids = Ok true →
  json_contains k ids' = Ok true.
Proof.
  destruct ids as [| | | |l|]; simpl; try discriminate.
  intros [= <-] [= Hl]. simpl. now rewrite existsb_app, Hl.
Qed.

Lemma json_append_self (k : string) (ids ids' : json) :
  json_append k ids = Ok ids' → json_contains k ids' = Ok true.
Proof.
  destruct ids as [| | | |l|]; simpl; try discriminate.
  intros [= <-]. simpl. rewrite existsb_app. simpl.
  now rewrite String.eqb_refl, orb_true_r.
Qed.


(** Identifiers are never removed during a run. *)
Lemma loop_body_keeps {T} `{Platform T} (phone : string) (st st' : loop_state)
    (row : news_item) (w w' : world T) (k : string) :
  loop_body phone st row w = (w', Ok st') →
  json_contains k (already_alerted_ids st) = Ok true →
  json_contains k (already_alerted_ids st') = Ok true.
Proof.
  intros Hbody Hin.
  apply loop_body_inv in Hbody as [(-> & _) | (_ & Happ)]; [exact Hin |].
  eapply json_append_keeps; eauto.
Qed.

Lemma for_rows_keeps {T} `{Platform T} (phone : string) (rows : list news_item)
    (st st' : loop_state) (w w' : world T) (k : string) :
  for_rows phone rows st w = (w', Ok st') →
  json_contains k (already_alerted_ids st) = Ok true →
  json_contains k (already_alerted_ids st') = Ok true.
Proof.
  revert st w. induction rows as [|row rows IH]; intros st w.
  - rewrite for_rows_nil. now intros [= <- <-].
  - rewrite for_rows_cons.
    destruct (loop_body phone st row w) as [w1 [st1|e]] eqn:Hbody; [| discriminate].
    intros Hrest Hin. eapply IH; [exact Hrest |].
    eapply loop_body_keeps; eauto.
Qed.

(** The critical items of a run are rows of its batch, after the ones
    already collected. *)
Lemma loop_body_critical_items {T} `{Platform T} (phone : string)
    (st st' : loop_state) (row : news_item) (w w' : world T) :
  loop_body phone st row w = (w', Ok st') →
  critical_items st' = critical_items st
  ∨ critical_items st' = critical_items st ++ [row].
Proof.
  unfold loop_body. unfold_M.
  destruct (json_contains _ _) as [[|]|e]; try discriminate.
  { intros [= <- <-]. now left. }
  destruct (is_critical_news _ _ _) as [[[|] reason]|e]; simpl; try discriminate.
  2:{ intros [= <- <-]. now left. }
  destruct (negb _).
  - destruct (send_sms_alert _ _ w) as [w1 [[|]|e]]; try discriminate.
    + destruct (json_append _ _); try discriminate. intros [= <- <-]. now right.
    + intros [= <- <-]. now right.
  - intros [= <- <-]. now right.
Qed.

Lemma for_rows_critical_items {T} `{Platform T} (phone : string)
    (rows : list news_item) (st st' : loop_state) (w w' : world T) :
  for_rows phone rows st w = (w', Ok st') →
  ∃ found, critical_items st' = critical_items st ++ found
           ∧ ∀ x, In x found → In x rows.
Proof.
  revert st w. induction rows as [|row rows IH]; intros st w.
  - rewrite for_rows_nil. intros [= <- <-]. exists []. split.
    + now rewrite app_nil_r.
    + intros x [].
  - rewrite for_rows_cons.
    destruct (loop_body phone st row w) as [w1 [st1|e]] eqn:Hbody; [| discriminate].
    intros Hrest. destruct (IH _ _ Hrest) as (found & Hfound & Hsub).
    apply loop_body_critical_items in Hbody as [Hsame | Hadd].
    + exists found. rewrite Hfound, Hsame. split; [reflexivity |].
      intros x Hx. right. now apply Hsub.
    + exists (row :: found). rewrite Hfound, Hadd, <- app_assoc. split; [reflexivity |].
      intros x [<- | Hx]; [now left | right; now apply Hsub].
Qed.

(** Rows whose identifier is known can be taken out of the batch: the run
    does the same with and without them. *)
Lemma for_rows_drop_known {T} `{Platform T} (phone : string)
    (drop : news_item → bool) (k : string) (rows : list news_item)
    (st : loop_state) (w : world T) :
  (∀ x, drop x = true → news_id x = k) →
  json_contains k (already_alerted_ids st) = Ok true →
  for_rows phone rows st w
  = for_rows phone (List.filter (fun x => negb (drop x)) rows) st w.
Proof.
  intros Hdrop. revert st w. induction rows as [|row rows IH]; intros st w Hin;
    [reflexivity |].
  cbn [List.filter]. destruct (drop row) eqn:Hrow; cbn [negb].
  - rewrite for_rows_cons, loop_body_skip.
    + now apply IH.
    + now rewrite (Hdrop row Hrow).
  - rewrite !for_rows_cons.
    destruct (loop_body phone st row w) as [w1 [st1|e]] eqn:Hbody; [| reflexivity].
    apply IH. eapply loop_body_keeps; eauto.
Qed.

Lemma initial_state_start {T} (h : gmap string json) (w : world T) :
  stored_history (hist_file w) = JObj h → initial_state h = start_state w.
Proof.
  intros Hh. unfold start_state. now rewrite (stored_ids_initial h w Hh).
Qed.

Lemma same_identity_news_id (a b : news_item) :
  same_identity a b = true → news_id b = news_id a.
Proof.
  unfold same_identity. intros Hs. apply bool_decide_eq_true in Hs as [Hsrc Hhead].
  unfold news_id. now rewrite Hsrc, Hhead.
Qed.

(** After a successful send the identifier of the row is known for the rest
    of the batch. *)
Lemma send_in_batch_known {T} `{Platform T} (phone : string)
    (rows : list news_item) (st0 stf : loop_state) (w0 wf : world T)
    (row : news_item) :
  for_rows phone rows st0 w0 = (wf, Ok stf) →
  send_in_batch phone rows st0 w0 row true →
  json_contains (news_id row) (already_alerted_ids stf) = Ok true.
Proof.
  intros Hrun (pre & post & st & w & w' & -> & Hpre & Hsend).
  rewrite for_rows_app, Hpre, for_rows_cons in Hrun.
  rewrite (loop_body_sends _ _ _ _ _ _ Hsend) in Hrun.
  destruct (json_append _ _) as [ids|e] eqn:Happ; [| discriminate].
  eapply for_rows_keeps; [exact Hrun |]. simpl.
  eapply json_append_self; eauto.
Qed.

(** C1, as stated, fails when the history of the first run is not stored.
    First case: the write of the history is refused, which the code logs and
    drops.  Second case: the file can be written, but a later row of the
    first batch has a NaN content, the classifier raises and the run ends
    before the save.  In both the alert went out in the first run, and the
    second run sends it again and reports the row again. *)
Lemma dedup_unsaved_counterexample :
  let item := demo_item "CERT-In" "Critical ransomware outbreak" "" in
  let bad := {| source := CStr "Some Blog"; headline := CStr "Weekly notes";
                content := CNaN; date := CStr "2025-01-01"; url := None |} in
  let phone := "+15550002222" in
  same_identity item item = true
  ∧ (let w0 := readonly_world Absent in
     let run1 := check_for_alerts [item] (Some phone) w0 in
     let run2 := check_for_alerts [item] (Some phone) (fst run1) in
     snd run1 = Ok ([item], true)
     ∧ send_in_batch phone [item] (start_state w0) w0 item true
     ∧ snd run2 = Ok ([item], true)
     ∧ twilio (fst run2)
       = [(phone, format_alert_message item); (phone, format_alert_message item)]
     ∧ run2
       ≠ check_for_alerts (List.filter (fun x => negb (same_identity item x)) [item])
           (Some phone) (fst run1))
  ∧ (let w0 := demo_world Absent in
     let run1 := check_for_alerts [item; bad] (Some phone) w0 in
     let run2 := check_for_alerts [item] (Some phone) (fst run1) in
     snd run1 = Raise TypeError
     ∧ send_in_batch phone [item; bad] (start_state w0) w0 item true
     ∧ twilio (fst run1) = [(phone, format_alert_message item)]
     ∧ hist_file (fst run1) = Absent
     ∧ snd run2 = Ok ([item], true)
     ∧ twilio (fst run2)
       = [(phone, format_alert_message item); (phone, format_alert_message item)]).
Proof.
  intros item bad phone.
  split; [vm_compute; reflexivity |].
  split.
  - intros w0 run1 run2.
    split; [vm_compute; reflexivity |].
    split.
    { exists [], [], (start_state w0), w0,
        (set_twilio [(phone, format_alert_message item)] w0).
      split; [reflexivity |]. split; [reflexivity |].
      split; [vm_compute; reflexivity |].
      split; [eexists; vm_compute; reflexivity |].
      split; [discriminate | vm_compute; reflexivity]. }
    split; [vm_compute; reflexivity |].
    split; [vm_compute; reflexivity |].
    intros Heq.
    assert (Hsnd : snd run2 = Ok ([item], true)) by (vm_compute; reflexivity).
    rewrite Heq in Hsnd. vm_compute in Hsnd. discriminate Hsnd.
  - intros w0 run1 run2.
    split; [vm_compute; reflexivity |].
    split.
    { exists [], [bad], (start_state w0), w0,
        (set_twilio [(phone, format_alert_message item)] w0).
      split; [reflexivity |]. split; [reflexivity |].
      split; [vm_compute; reflexivity |].
      split; [eexists; vm_compute; reflexivity |].
      split; [discriminate | vm_compute; reflexivity]. }
    split; [vm_compute; reflexivity |].
    split; [vm_compute; reflexivity |].
    split; vm_compute; reflexivity.
Qed.

(** C1, amended.  Let a first run return, with its history stored, and let the send
    for a row have succeeded in it.  A later run that starts from that stored
    history treats every row with the same source and headline as if it were
    not in the input: same result, same effects, so no send for it; and no
    such row is among its critical items. *)
Theorem dedup_idempotent {T} `{Platform T} (rows1 rows2 : list news_item)
    (phone1 : string) (phone2 : option string) (w0 w1 w2 : world T)
    (res1 : list news_item * bool) (row : news_item) :
  check_for_alerts rows1 (Some phone1) w0 = (w1, Ok res1) →
  hist_writable w0 = true →
  send_in_batch phone1 rows1 (start_state w0) w0 row true →
  hist_file w2 = hist_file w1 →
  check_for_alerts rows2 phone2 w2
  = check_for_alerts (List.filter (fun x => negb (same_identity row x)) rows2) phone2 w2
  ∧ ∀ w3 crit2 any2,
      check_for_alerts rows2 phone2 w2 = (w3, Ok (crit2, any2)) →
      ∀ x, In x crit2 → same_identity row x = false.
Proof.
  intros Hrun1 Hwr Hsent Hfile.
  rewrite check_for_alerts_unfold in Hrun1.
  destruct (stored_history (hist_file w0)) as [| | | | |h] eqn:Hh; try discriminate.
  rewrite (initial_state_start h w0 Hh) in Hrun1.
  destruct (for_rows phone1 rows1 (start_state w0) w0) as [wa [stf|e]] eqn:Hloop;
    [| discriminate].
  pose proof (send_in_batch_known _ _ _ _ _ _ _ Hloop Hsent) as Hknown.
  apply for_rows_frame in Hloop as (_ & Hwa & _).
  rewrite Hwa, Hwr in Hrun1. injection Hrun1 as <- <-.
  simpl in Hfile.
  assert (Hh2 : stored_history (hist_file w2)
                = updated_history h (clock w0) (already_alerted_ids stf))
    by now rewrite Hfile.
  assert (Heq : check_for_alerts rows2 phone2 w2
    = check_for_alerts (List.filter (fun x => negb (same_identity row x)) rows2)
        phone2 w2).
  { destruct phone2 as [p|]; [| reflexivity].
    rewrite !check_for_alerts_unfold, Hh2. unfold updated_history.
    rewrite <- (for_rows_drop_known p (same_identity row) (news_id row));
      [reflexivity | apply same_identity_news_id |].
    unfold initial_state. simpl. now rewrite lookup_insert_eq. }
  split; [exact Heq |].
  intros w3 crit2 any2 Hrun2 x Hx.
  rewrite Heq in Hrun2.
  destruct phone2 as [p|]; [| injection Hrun2 as _ <- _; destruct Hx].
  rewrite check_for_alerts_unfold, Hh2 in Hrun2. unfold updated_history in Hrun2.
  destruct (for_rows p _ _ w2) as [wb [st2|e]] eqn:Hloop2; [| discriminate].
  injection Hrun2 as _ <- _.
  apply for_rows_critical_items in Hloop2 as (found & Hfound & Hsub).
  simpl in Hfound. rewrite Hfound in Hx. apply Hsub in Hx.
  apply List.filter_In in Hx as [_ Hx]. now apply negb_true_iff in Hx.
Qed.

Lemma dedup_idempotent_witness :
  let item := demo_item "CERT-In" "Critical ransomware outbreak" "" in
  let again := {| source := CStr "CERT-In";
                  headline := CStr "Critical ransomware outbreak";
                  content := CNaN; date := CStr "2025-01-02"; url := None |} in
  let other := demo_item "Some Blog" "Weekly notes" "nothing new" in
  let w0 := demo_world Absent in
  let w1 := fst (check_for_alerts [item; other] (Some "+15550002222") w0) in
  check_for_alerts [again; other] (Some "+15550002222") w1
  = check_for_alerts [other] (Some "+15550002222") w1
  ∧ snd (check_for_alerts [again; other] (Some "+15550002222") w1) = Ok ([], false).
Proof.
  intros item again other w0 w1. split; [| vm_compute; reflexivity].
  refine (proj1 (dedup_idempotent [item; other] [again; other] "+15550002222"
                   (Some "+15550002222") w0 w1 w1 ([item], true) item _ _ _ _)).
  - vm_compute. reflexivity.
  - reflexivity.
  - exists [], [other], (start_state w0), w0,
      (set_twilio [("+15550002222", format_alert_message item)] w0).
    split; [reflexivity |]. split; [reflexivity |].
    split; [vm_compute; reflexivity |].
    split; [eexists; vm_compute; reflexivity |].
    split; [discriminate | vm_compute; reflexivity].
  - reflexivity.
Defined.








(** * Further properties *)

(** ** The classifier, further *)

Lemma app_string_ne (x : ascii) (a b : string) : String x a +:+ b ≠ "".
Proof. rewrite app_string_cons. discriminate. Qed.

Lemma decide_critical_reason (src : cell) (text : string) :
  fst (decide_critical src text) = true ↔ snd (decide_critical src text) ≠ "".
Proof.
  cascade text.
  destruct (cell_in src priority_sources), (cell_in src medium_priority_sources),
    (1 <=? List.length high)%nat, (2 <=? List.length medium)%nat,
    (1 <=? List.length medium)%nat, (3 <=? List.length (high ++ medium ++ low))%nat;
    cbn [andb fst snd]; split; try discriminate; try congruence;
    intros _; apply app_string_ne.
Qed.

Lemma is_critical_news_ok_inv (h c src : cell) (v : bool * string) :
  is_critical_news h c src = Ok v →
  ∃ hs cs, h = CStr hs ∧ c = CStr cs
           ∧ v = decide_critical src (PyStr.lower (hs +:+ " " +:+ cs)).
Proof.
  destruct h as [hs| |], c as [cs| |]; try discriminate.
  rewrite is_critical_news_str. intros [= <-]. eauto.
Qed.

(** X1.  Whenever the classifier returns, the reason is the empty string
    exactly when the verdict is "not critical". *)
Theorem reason_iff_critical (h c src : cell) (v : bool * string) :
  is_critical_news h c src = Ok v →
  (fst v = true ↔ snd v ≠ "").
Proof.
  intros Hv. apply is_critical_news_ok_inv in Hv as (hs & cs & _ & _ & ->).
  apply decide_critical_reason.
Qed.

Lemma reason_iff_critical_witness :
  (true = true
   ↔ "High-priority source (CERT-In) with critical keyword: ransomware" ≠ "")
  ∧ (false = true ↔ "" ≠ "").
Proof.
  split.
  - apply (reason_iff_critical (CStr "Ransomware hits bank") (CStr "") (CStr "CERT-In")
             (true, "High-priority source (CERT-In) with critical keyword: ransomware")).
    vm_compute. reflexivity.
  - apply (reason_iff_critical (CStr "Ransomware hits bank") (CStr "") (CStr "Some Blog")
             (false, "")).
    vm_compute. reflexivity.
Defined.

(** X2.  The classifier returns exactly when headline and content are both
    strings; otherwise it raises [TypeError], whatever the source is. *)
Theorem is_critical_news_raises_iff (h c src : cell) :
  (is_cstr h && is_cstr c = true ↔ ∃ v, is_critical_news h c src = Ok v)
  ∧ (is_cstr h && is_cstr c = false ↔ is_critical_news h c src = Raise TypeError).
Proof.
  destruct h as [hs| |], c as [cs| |]; simpl;
    try (split; split; try discriminate; try reflexivity; intros [v Hv]; discriminate).
  rewrite is_critical_news_str. split; split; try discriminate; eauto.
Qed.

Lemma lower_ascii_idem (a : ascii) :
  PyStr.lower_ascii (PyStr.lower_ascii a) = PyStr.lower_ascii a.
Proof. destruct a as [[] [] [] [] [] [] [] []]; reflexivity. Qed.

Lemma lower_idem (s : string) : PyStr.lower (PyStr.lower s) = PyStr.lower s.
Proof.
  induction s as [|a s IH]; [reflexivity |].
  simpl. now rewrite lower_ascii_idem, IH.
Qed.

Lemma lower_joined (h c : string) :
  PyStr.lower (PyStr.lower h +:+ " " +:+ PyStr.lower c)
  = PyStr.lower (h +:+ " " +:+ c).
Proof. rewrite !lower_app, !lower_idem. reflexivity. Qed.

(** X3.  The verdict and the reason do not depend on letter case: texts
    that agree once lowered are classified alike, and a text is classified
    like its lowered form. *)
Theorem classifier_ignores_case (h c h' c' : string) (src : cell) :
  PyStr.lower h = PyStr.lower h' →
  PyStr.lower c = PyStr.lower c' →
  is_critical_news (CStr h) (CStr c) src = is_critical_news (CStr h') (CStr c') src
  ∧ is_critical_news (CStr h) (CStr c) src
    = is_critical_news (CStr (PyStr.lower h)) (CStr (PyStr.lower c)) src.
Proof.
  intros Hh Hc. rewrite !is_critical_news_str. split.
  - now rewrite !lower_app, Hh, Hc.
  - now rewrite lower_joined.
Qed.

Lemma classifier_ignores_case_witness :
  is_critical_news (CStr "RANSOMWARE Hits Bank") (CStr "Data BREACH") (CStr "Some Blog")
  = is_critical_news (CStr "ransomware hits bank") (CStr "data breach") (CStr "Some Blog").
Proof.
  apply (classifier_ignores_case "RANSOMWARE Hits Bank" "Data BREACH"
           "ransomware hits bank" "data breach" (CStr "Some Blog"));
    vm_compute; reflexivity.
Defined.

(** X4.  A source of a higher class never lowers the verdict: a text that
    is critical from one source is critical from every source whose class
    ranks at least as high (unclassified, then medium priority, then
    priority). *)
Theorem source_priority_monotone (h c s1 s2 : cell) (r1 : string) :
  (source_rank (classify_source s1) ≤ source_rank (classify_source s2))%nat →
  is_critical_news h c s1 = Ok (true, r1) →
  ∃ r2, is_critical_news h c s2 = Ok (true, r2).
Proof.
  intros Hrank Hcrit.
  destruct (is_critical_news_ok_inv _ _ _ _ Hcrit) as (hs & cs & -> & -> & Hv).
  rewrite is_critical_news_str.
  set (text := PyStr.lower (hs +:+ " " +:+ cs)) in *.
  assert (Hfst : fst (decide_critical s1 text) = true) by now rewrite <- Hv.
  clear Hv Hcrit.
  enough (Hgoal : fst (decide_critical s2 text) = true).
  { destruct (decide_critical s2 text) as [b r]. simpl in Hgoal. subst b. eauto. }
  revert Hrank Hfst. unfold classify_source. cascade text.
  destruct (cell_in s1 priority_sources), (cell_in s1 medium_priority_sources),
    (cell_in s2 priority_sources), (cell_in s2 medium_priority_sources),
    (1 <=? List.length high)%nat, (2 <=? List.length medium)%nat,
    (1 <=? List.length medium)%nat, (3 <=? List.length (high ++ medium ++ low))%nat;
    cbn [andb fst snd source_rank]; intros Hrank Hfst;
    try reflexivity; try discriminate; lia.
Qed.

Lemma source_priority_monotone_witness :
  ∃ r2, is_critical_news (CStr "Ransomware attack on bank") (CStr "") (CStr "The Hindu")
        = Ok (true, r2).
Proof.
  apply (source_priority_monotone (CStr "Ransomware attack on bank") (CStr "")
           (CStr "Some Blog") (CStr "The Hindu")
           "High and medium severity keywords: ransomware, attack").
  - vm_compute. lia.
  - vm_compute. reflexivity.
Defined.

(** X5.  Three matched keywords make a text critical from any source; and
    with no high keyword, fewer than two medium keywords and fewer than three
    keywords in all, no source makes it critical. *)
Theorem keyword_count_thresholds (h c : string) (src : cell) :
  let text := PyStr.lower (h +:+ " " +:+ c) in
  let high := matches severity_high_keywords text in
  let medium := matches severity_medium_keywords text in
  let low := matches severity_low_keywords text in
  ((3 ≤ List.length (high ++ medium ++ low))%nat →
   ∃ reason, is_critical_news (CStr h) (CStr c) src = Ok (true, reason))
  ∧ (high = [] → (List.length medium < 2)%nat →
     (List.length (medium ++ low) < 3)%nat →
     is_critical_news (CStr h) (CStr c) src = Ok (false, "")).
Proof.
  intros text high medium low. rewrite is_critical_news_str. fold text.
  unfold decide_critical. fold high medium low. split.
  - intros H3. apply Nat.leb_le in H3. rewrite H3.
    destruct (cell_in src priority_sources), (cell_in src medium_priority_sources),
      (1 <=? List.length high)%nat, (2 <=? List.length medium)%nat,
      (1 <=? List.length medium)%nat; cbn [andb]; eauto.
  - intros -> Hm Hall. cbn [List.length app].
    apply Nat.leb_gt in Hm. apply Nat.leb_gt in Hall. rewrite Hm, Hall.
    cbn [Nat.leb andb]. rewrite !andb_false_r. reflexivity.
Qed.

Lemma keyword_count_thresholds_witness :
  (∃ reason,
     is_critical_news (CStr "Patch advisory") (CStr "new threat") (CStr "CERT-In")
     = Ok (true, reason))
  ∧ is_critical_news (CStr "Patch advisory") (CStr "") (CStr "CERT-In") = Ok (false, "").
Proof.
  split.
  - apply (keyword_count_thresholds "Patch advisory" "new threat" (CStr "CERT-In")).
    vm_compute. lia.
  - apply (keyword_count_thresholds "Patch advisory" "" (CStr "CERT-In"));
      vm_compute; (reflexivity || lia).
Defined.

(** ** The score and the digest, further *)

Lemma list_sum_Z_app (a b : list Z) :
  list_sum_Z (a ++ b) = (list_sum_Z a + list_sum_Z b)%Z.
Proof.
  unfold list_sum_Z. induction a as [|x a IH]; simpl; [lia | rewrite IH; lia].
Qed.

(** Weights of one tier of the table, against the keywords it matches. *)
Lemma tier_weight_bounds (lo hi : Z) (table : list (string * Z)) (text : string) :
  Forall (fun kv => (lo <= snd kv <= hi)%Z) table →
  let found := List.filter
                 (fun kv => PyStr.contains (PyStr.lower (fst kv)) text) table in
  let n := Z.of_nat (List.length (matches (map fst table) text)) in
  (lo * n <= list_sum_Z (map snd found) <= hi * n)%Z.
Proof.
  induction 1 as [|kv table Hkv Hall IH]; cbn zeta in *.
  - unfold list_sum_Z. simpl. lia.
  - unfold matches in *. cbn [map List.filter].
    destruct (PyStr.contains (PyStr.lower (fst kv)) text).
    + cbn [map List.length]. unfold list_sum_Z in *. cbn [fold_right]. lia.
    + exact IH.
Qed.

(** The table lists the high keywords, then the medium ones, then the low
    ones. *)
Lemma severity_scores_tiers :
  severity_scores
  = take 10 severity_scores ++ take 11 (drop 10 severity_scores)
    ++ drop 21 severity_scores
  ∧ map fst (take 10 severity_scores) = severity_high_keywords
  ∧ map fst (take 11 (drop 10 severity_scores)) = severity_medium_keywords
  ∧ map fst (drop 21 severity_scores) = severity_low_keywords.
Proof. repeat split. Qed.

Lemma keyword_weight_bounds (text : string) :
  let found := List.filter
                 (fun kv => PyStr.contains (PyStr.lower (fst kv)) text)
                 severity_scores in
  let h := Z.of_nat (List.length (matches severity_high_keywords text)) in
  let m := Z.of_nat (List.length (matches severity_medium_keywords text)) in
  let l := Z.of_nat (List.length (matches severity_low_keywords text)) in
  (8 * h + 5 * m + 1 * l <= list_sum_Z (map snd found)
   <= 10 * h + 7 * m + 4 * l)%Z.
Proof.
  cbn zeta.
  destruct severity_scores_tiers as (Hsplit & Hh & Hm & Hl).
  rewrite Hsplit at 1 2. rewrite !List.filter_app, !map_app, !list_sum_Z_app.
  rewrite <- Hh, <- Hm, <- Hl.
  pose proof (tier_weight_bounds 8 10 (take 10 severity_scores) text) as B1.
  pose proof (tier_weight_bounds 5 7 (take 11 (drop 10 severity_scores)) text) as B2.
  pose proof (tier_weight_bounds 1 4 (drop 21 severity_scores) text) as B3.
  cbn zeta in B1, B2, B3.
  assert (F1 : Forall (fun kv : string * Z => (8 <= snd kv <= 10)%Z)
                 (take 10 severity_scores)).
  { vm_compute. repeat constructor; discriminate. }
  assert (F2 : Forall (fun kv : string * Z => (5 <= snd kv <= 7)%Z)
                 (take 11 (drop 10 severity_scores))).
  { vm_compute. repeat constructor; discriminate. }
  assert (F3 : Forall (fun kv : string * Z => (1 <= snd kv <= 4)%Z)
                 (drop 21 severity_scores)).
  { vm_compute. repeat constructor; discriminate. }
  specialize (B1 F1). specialize (B2 F2). specialize (B3 F3). lia.
Qed.

Lemma table_get_bounds (src : cell) :
  (0 <= table_get digest_priority_sources src <= 10)%Z
  ∧ (cell_in src priority_sources = true →
     (7 <= table_get digest_priority_sources src)%Z)
  ∧ (cell_in src medium_priority_sources = true →
     table_get digest_priority_sources src = 5%Z).
Proof.
  destruct src as [s| |]; try (simpl; repeat split; try lia; discriminate).
  unfold digest_priority_sources, priority_sources, medium_priority_sources.
  cbn [table_get cell_in existsb].
  rewrite !(String.eqb_sym s).
  repeat match goal with
         | |- context [String.eqb ?k s] =>
           destruct (String.eqb_spec k s) as [<- | ?]
         end; cbn; repeat split; intros; try lia; try discriminate.
Qed.

(** X6.  On string fields the score lies between the points of the source
    plus 8, 5 and 1 per matched high, medium and low keyword of the
    classifier, and the same with 10, 7 and 4. *)
Theorem score_against_match_counts (row : news_item) (h c : string) :
  headline row = CStr h → content row = CStr c →
  let text := PyStr.lower (h +:+ " " +:+ c) in
  let nh := Z.of_nat (List.length (matches severity_high_keywords text)) in
  let nm := Z.of_nat (List.length (matches severity_medium_keywords text)) in
  let nl := Z.of_nat (List.length (matches severity_low_keywords text)) in
  let pts := table_get digest_priority_sources (source row) in
  (pts + 8 * nh + 5 * nm + nl <= criticality_score row
   <= pts + 10 * nh + 7 * nm + 4 * nl)%Z.
Proof.
  intros Hh Hc. cbn zeta.
  rewrite criticality_score_sum. unfold score_by_sum.
  rewrite (digest_text_str row h c Hh Hc).
  pose proof (keyword_weight_bounds (PyStr.lower (h +:+ " " +:+ c))) as B.
  cbn zeta in B. lia.
Qed.

Lemma score_against_match_counts_witness :
  (10 + 8 * 1 + 5 * 1 + 0
   <= criticality_score (demo_item "CERT-In" "Ransomware attack on bank" "")
   <= 10 + 10 * 1 + 7 * 1 + 4 * 0)%Z.
Proof.
  exact (score_against_match_counts
           (demo_item "CERT-In" "Ransomware attack on bank" "")
           "Ransomware attack on bank" "" eq_refl eq_refl).
Defined.

Lemma filtered_weights_le (f : string * Z → bool) (table : list (string * Z)) :
  Forall (fun kv => (0 <= snd kv)%Z) table →
  (0 <= list_sum_Z (map snd (List.filter f table)) <= list_sum_Z (map snd table))%Z.
Proof.
  unfold list_sum_Z.
  induction 1 as [|kv table Hkv Hall IH]; cbn [List.filter map fold_right]; [lia |].
  destruct (f kv); cbn [map fold_right]; lia.
Qed.

(** X7.  The score of any row, whatever its fields hold, is at least 0 and
    at most 180. *)
Theorem score_bounds (row : news_item) :
  (0 <= criticality_score row <= 180)%Z.
Proof.
  rewrite criticality_score_sum. unfold score_by_sum.
  destruct (table_get_bounds (source row)) as (Hp & _).
  pose proof (filtered_weights_le
                (fun kv => PyStr.contains (PyStr.lower (fst kv)) (digest_text row))
                severity_scores) as B.
  assert (F : Forall (fun kv : string * Z => (0 <= snd kv)%Z) severity_scores).
  { vm_compute. repeat constructor; discriminate. }
  specialize (B F).
  change (list_sum_Z (map snd severity_scores)) with 170%Z in B. lia.
Qed.

(** X8.  A row the classifier finds critical with a high keyword or with
    two medium keywords in its text, which is the case for the rules (a) to
    (d), scores at least 10 and so qualifies for the digest. *)
Theorem strong_rules_qualify_for_digest (row : news_item) (h c reason : string) :
  headline row = CStr h → content row = CStr c →
  is_critical_news (headline row) (content row) (source row) = Ok (true, reason) →
  let text := PyStr.lower (h +:+ " " +:+ c) in
  (1 ≤ List.length (matches severity_high_keywords text)
   ∨ 2 ≤ List.length (matches severity_medium_keywords text))%nat →
  (10 <= criticality_score row)%Z.
Proof.
  intros Hh Hc Hcrit text Hstrong.
  rewrite criticality_score_sum. unfold score_by_sum.
  rewrite (digest_text_str row h c Hh Hc). fold text.
  pose proof (keyword_weight_bounds text) as B. cbn zeta in B.
  destruct (table_get_bounds (source row)) as (Hpts & Hprio & Hmed).
  rewrite Hh, Hc, is_critical_news_str in Hcrit. fold text in Hcrit.
  injection Hcrit as Hcrit.
  assert (Hfst : fst (decide_critical (source row) text) = true) by now rewrite Hcrit.
  clear Hcrit. revert Hfst. unfold decide_critical.
  rewrite !List.length_app.
  set (nh := List.length (matches severity_high_keywords text)) in *.
  set (nm := List.length (matches severity_medium_keywords text)) in *.
  set (nl := List.length (matches severity_low_keywords text)) in *.
  destruct Hstrong as [Hhigh | Hmedium]; [| lia].
  destruct (cell_in (source row) priority_sources);
    [specialize (Hprio eq_refl); lia |].
  destruct (cell_in (source row) medium_priority_sources);
    [specialize (Hmed eq_refl); lia |].
  cbn [andb].
  destruct (Nat.leb_spec 1 nh), (Nat.leb_spec 1 nm), (Nat.leb_spec 3 (nh + (nm + nl)));
    cbn [andb fst]; intros Hfst; try discriminate; lia.
Qed.

Lemma strong_rules_qualify_for_digest_witness :
  (10 <= criticality_score (demo_item "Some Blog" "Ransomware attack on bank" ""))%Z
  ∧ is_critical_news (CStr "New threat") (CStr "cybersecurity patch") (CStr "Some Blog")
    = Ok (true, "Multiple security keywords: patch, cybersecurity, threat")
  ∧ criticality_score (demo_item "Some Blog" "New threat" "cybersecurity patch") = 5%Z.
Proof.
  split; [| split; vm_compute; reflexivity].
  apply (strong_rules_qualify_for_digest
           (demo_item "Some Blog" "Ransomware attack on bank" "")
           "Ransomware attack on bank" ""
           "High and medium severity keywords: ransomware, attack" eq_refl eq_refl).
  - vm_compute. reflexivity.
  - left. vm_compute. lia.
Defined.

Lemma In_take {A} (x : A) (n : nat) (l : list A) : In x (take n l) → In x l.
Proof.
  revert n. induction l as [|y l IH]; intros [|n]; simpl; try tauto.
  intros [-> | Hin]; [now left | right; eauto].
Qed.

Lemma score_rows_items (rows : list news_item) (item : scored_item) :
  In item (score_rows rows) →
  In (fst item) rows ∧ snd item = criticality_score (fst item) ∧ (10 <= snd item)%Z.
Proof.
  induction rows as [|row rows IH]; [intros [] |].
  rewrite score_rows_cons.
  destruct (Z.leb_spec 10 (criticality_score row)) as [Hge | Hlt].
  - intros [<- | Hin].
    + cbn [fst snd]. split; [left; reflexivity |]. split; [reflexivity | exact Hge].
    + destruct (IH Hin) as (H1 & H2 & H3).
      split; [right; exact H1 |]. split; [exact H2 | exact H3].
  - intros Hin. destruct (IH Hin) as (H1 & H2 & H3).
    split; [right; exact H1 |]. split; [exact H2 | exact H3].
Qed.

Lemma score_rows_length (rows : list news_item) :
  (List.length (score_rows rows) ≤ List.length rows)%nat.
Proof.
  induction rows as [|row rows IH]; [reflexivity |].
  rewrite score_rows_cons.
  destruct (10 <=? criticality_score row)%Z; cbn [List.length]; lia.
Qed.

Lemma digest_nonneg (rows : list news_item) (n : Z) :
  (0 <= n)%Z →
  get_critical_news_digest rows n
  = take (Z.to_nat n) (sort_desc snd (score_rows rows)).
Proof.
  intros Hn. unfold get_critical_news_digest, py_slice_to.
  destruct (Z.ltb_spec n 0); [lia | reflexivity].
Qed.

Lemma digest_items (rows : list news_item) (n : Z) (item : scored_item) :
  (0 <= n)%Z →
  In item (get_critical_news_digest rows n) →
  In (fst item) rows
  ∧ snd item = criticality_score (fst item)
  ∧ (10 <= snd item)%Z.
Proof.
  intros Hn Hin. rewrite digest_nonneg in Hin by lia.
  apply score_rows_items.
  apply (Permutation_in _ (sort_desc_perm snd (score_rows rows))).
  eapply In_take; exact Hin.
Qed.

Lemma digest_length (rows : list news_item) (n : Z) :
  (0 <= n)%Z →
  (List.length (get_critical_news_digest rows n) ≤ Z.to_nat n)%nat
  ∧ (List.length (get_critical_news_digest rows n) ≤ List.length rows)%nat.
Proof.
  intros Hn. rewrite digest_nonneg by lia.
  pose proof (length_take (sort_desc snd (score_rows rows)) (Z.to_nat n)) as Htake.
  pose proof (Permutation_length (sort_desc_perm snd (score_rows rows))) as Hperm.
  pose proof (score_rows_length rows) as Hrows.
  unfold scored_item in *. split; lia.
Qed.

(** X9.  For counts [n <= m] the digest of [n] items is the first [n] of
    the digest of [m] items; it has at most [n] items and at most as many as
    there are rows; and each item is an input row with its own score, which
    is at least 10. *)
Theorem digest_prefix_and_items (rows : list news_item) (n m : Z) :
  (0 <= n <= m)%Z →
  get_critical_news_digest rows n
  = take (Z.to_nat n) (get_critical_news_digest rows m)
  ∧ (List.length (get_critical_news_digest rows n) ≤ Z.to_nat n)%nat
  ∧ (List.length (get_critical_news_digest rows n) ≤ List.length rows)%nat
  ∧ ∀ item, In item (get_critical_news_digest rows n) →
      In (fst item) rows
      ∧ snd item = criticality_score (fst item)
      ∧ (10 <= snd item)%Z.
Proof.
  intros [Hn Hm].
  split; [| split; [| split]].
  - rewrite !digest_nonneg by lia. rewrite take_take. f_equal. lia.
  - now apply digest_length.
  - now apply digest_length.
  - intros item. now apply digest_items.
Qed.

Lemma digest_prefix_and_items_witness :
  let a := demo_item "The Hindu" "Critical flaw found" "" in
  let b := demo_item "CERT-In" "Critical and urgent notice" "" in
  let c := demo_item "Some Blog" "Weekly notes" "" in
  get_critical_news_digest [a; b; c] 1 = take 1 (get_critical_news_digest [a; b; c] 5)
  ∧ get_critical_news_digest [a; b; c] 5 = [(b, 30%Z); (a, 15%Z)].
Proof.
  intros a b c. split; [| vm_compute; reflexivity].
  apply (digest_prefix_and_items [a; b; c] 1 5). lia.
Defined.

Lemma sort_desc_sorted_id {A} (key : A → Z) (l : list A) :
  StronglySorted (fun a b => (key b <= key a)%Z) l → sort_desc key l = l.
Proof.
  induction 1 as [|x l Hs IH Hall]; [reflexivity |].
  simpl. rewrite IH. destruct l as [|y l']; [reflexivity |].
  simpl. inversion Hall as [|? ? Hy _]; subst.
  destruct (Z.ltb_spec (key x) (key y)); [lia | reflexivity].
Qed.

Lemma score_rows_scored (l : list scored_item) :
  (∀ item, In item l →
     snd item = criticality_score (fst item) ∧ (10 <= snd item)%Z) →
  score_rows (map fst l) = l.
Proof.
  induction l as [|[row s] l IH]; [reflexivity |].
  intros Hl. cbn [map fst]. rewrite score_rows_cons.
  destruct (Hl (row, s) (or_introl eq_refl)) as [Hs Hge]. cbn [fst snd] in Hs, Hge.
  rewrite <- Hs.
  destruct (Z.leb_spec 10 s); [| lia].
  rewrite IH; [reflexivity |]. intros item Hin. apply Hl. now right.
Qed.

Lemma StronglySorted_take {A} (R : A → A → Prop) (n : nat) (l : list A) :
  StronglySorted R l → StronglySorted R (take n l).
Proof.
  intros Hs. revert n. induction Hs as [|x l Hs IH Hall]; intros [|n]; simpl;
    try constructor; auto.
  rewrite List.Forall_forall in *. intros y Hy. apply Hall.
  eapply In_take; exact Hy.
Qed.

(** X10.  Building the digest again from the rows of a digest gives the
    same digest: same items, same scores, same order. *)
Theorem digest_of_digest (rows : list news_item) (n : Z) :
  (0 <= n)%Z →
  get_critical_news_digest (map fst (get_critical_news_digest rows n)) n
  = get_critical_news_digest rows n.
Proof.
  intros Hn.
  rewrite (digest_nonneg (map fst _)) by lia.
  rewrite score_rows_scored
    by (intros item Hin; apply (digest_items rows n) in Hin; [tauto | lia]).
  rewrite sort_desc_sorted_id.
  - apply take_ge. now apply digest_length.
  - rewrite digest_nonneg by lia. apply StronglySorted_take, sort_desc_sorted.
Qed.

Lemma digest_of_digest_witness :
  let a := demo_item "The Hindu" "Critical flaw found" "" in
  let b := demo_item "CERT-In" "Critical and urgent notice" "" in
  let c := demo_item "The Hindu" "Urgent notice" "" in
  get_critical_news_digest (map fst (get_critical_news_digest [a; b; c] 2)) 2
  = get_critical_news_digest [a; b; c] 2.
Proof. intros a b c. apply (digest_of_digest [a; b; c] 2). lia. Defined.

(** ** The dispatcher, further *)

(** One row, processed without an exception, from a list of identifiers. *)
Lemma loop_body_step {T} `{Platform T} (phone : string) (st st' : loop_state)
    (row : news_item) (w w' : world T) (l : list json) :
  loop_body phone st row w = (w', Ok st') →
  already_alerted_ids st = JList l →
  (already_alerted_ids st' = JList l
   ∧ alerts_sent st' = alerts_sent st
   ∧ critical_items st' = critical_items st)
  ∨ (existsb (json_eq_str (news_id row)) l = false
     ∧ (∃ reason, is_critical_news (headline row) (content row) (source row)
                  = Ok (true, reason))
     ∧ critical_items st' = critical_items st ++ [row]
     ∧ (already_alerted_ids st' = JList l ∧ alerts_sent st' = alerts_sent st
        ∨ already_alerted_ids st' = JList (l ++ [JStr (news_id row)])
          ∧ alerts_sent st' = S (alerts_sent st))).
Proof.
  intros Hbody Hl. unfold loop_body in Hbody. unfold_M.
  rewrite Hl in Hbody. cbn [json_contains] in Hbody.
  destruct (existsb (json_eq_str (news_id row)) l) eqn:Hin.
  { injection Hbody as _ <-. left. auto. }
  destruct (is_critical_news _ _ _) as [[[|] reason]|e] eqn:Hcrit;
    cbn [fst] in Hbody; try discriminate.
  2:{ injection Hbody as _ <-. left. auto. }
  right. split; [reflexivity |]. split; [eauto |].
  destruct (negb _).
  - destruct (send_sms_alert _ _ w) as [w1 [[|]|e]]; try discriminate.
    + cbn [json_append] in Hbody. injection Hbody as _ <-. simpl. auto.
    + injection Hbody as _ <-. simpl. auto.
  - injection Hbody as _ <-. simpl. auto.
Qed.

Lemma existsb_snoc_false (k k' : string) (l : list json) :
  existsb (json_eq_str k') (l ++ [JStr k]) = false →
  existsb (json_eq_str k') l = false ∧ k ≠ k'.
Proof.
  rewrite existsb_app. simpl. rewrite orb_false_r.
  intros Hor. apply orb_false_iff in Hor as [Hl Hk]. split; [exact Hl |].
  intros ->. now rewrite String.eqb_refl in Hk.
Qed.

(** What a batch adds: the new identifiers, in order, each once, none known
    before, each the identifier of a reported row; and the reported rows, a
    subsequence of the batch, each critical and unknown when the batch
    started. *)
Lemma for_rows_added {T} `{Platform T} (phone : string) (rows : list news_item)
    (st st' : loop_state) (w w' : world T) (l : list json) :
  for_rows phone rows st w = (w', Ok st') →
  already_alerted_ids st = JList l →
  ∃ (added : list string) (found : list news_item),
    already_alerted_ids st' = JList (l ++ map JStr added)
    ∧ alerts_sent st' = (alerts_sent st + List.length added)%nat
    ∧ critical_items st' = critical_items st ++ found
    ∧ NoDup added
    ∧ sublist found rows
    ∧ (∀ k, In k added →
         existsb (json_eq_str k) l = false ∧ ∃ r, In r found ∧ news_id r = k)
    ∧ (∀ r, In r found →
         existsb (json_eq_str (news_id r)) l = false
         ∧ ∃ reason, is_critical_news (headline r) (content r) (source r)
                     = Ok (true, reason)).
Proof.
  revert st w l. induction rows as [|row rows IH]; intros st w l.
  - rewrite for_rows_nil. intros [= <- <-] Hl. exists [], [].
    rewrite !app_nil_r, Nat.add_0_r.
    split; [exact Hl |]. split; [reflexivity |]. split; [reflexivity |].
    split; [constructor |]. split; [constructor |].
    split; intros ? [].
  - rewrite for_rows_cons.
    destruct (loop_body phone st row w) as [w1 [st1|e]] eqn:Hbody; [| discriminate].
    intros Hrest Hl.
    destruct (loop_body_step _ _ _ _ _ _ _ Hbody Hl)
      as [(Hids & Hsent & Hcrit)
         | (Hnew & Hreason & Hcrit & [(Hids & Hsent) | (Hids & Hsent)])];
      destruct (IH _ _ _ Hrest Hids)
        as (added & found & Ha & Hs & Hc & Hnd & Hsub & Hadded & Hfound).
    + exists added, found. rewrite Ha, Hs, Hc, Hsent, Hcrit.
      split; [reflexivity |]. split; [reflexivity |]. split; [reflexivity |].
      split; [exact Hnd |]. split; [now apply sublist_cons |].
      split; [exact Hadded | exact Hfound].
    + exists added, (row :: found). rewrite Ha, Hs, Hc, Hsent, Hcrit, <- app_assoc.
      split; [reflexivity |]. split; [reflexivity |]. split; [reflexivity |].
      split; [exact Hnd |]. split; [now apply sublist_skip |].
      split.
      * intros k Hk. destruct (Hadded k Hk) as (Hfresh & r & Hr & Hrk).
        split; [exact Hfresh |]. exists r. split; [now right | exact Hrk].
      * intros r [<- | Hr]; [split; [exact Hnew | exact Hreason] | now apply Hfound].
    + exists (news_id row :: added), (row :: found).
      rewrite Ha, Hs, Hc, Hsent, Hcrit, <- !app_assoc. cbn [map List.length app].
      split; [reflexivity |]. split; [lia |]. split; [reflexivity |].
      split.
      { constructor; [| exact Hnd]. intros Hin. apply list_elem_of_In in Hin.
        destruct (Hadded _ Hin) as (Hk & _).
        apply existsb_snoc_false in Hk as [_ Hk]. now apply Hk. }
      split; [now apply sublist_skip |].
      split.
      * intros k [<- | Hk].
        { split; [exact Hnew |]. exists row. split; [now left | reflexivity]. }
        destruct (Hadded _ Hk) as (Hk' & r & Hr & Hrk).
        apply existsb_snoc_false in Hk' as [Hk' _].
        split; [exact Hk' |]. exists r. split; [now right | exact Hrk].
      * intros r [<- | Hr]; [split; [exact Hnew | exact Hreason] |].
        destruct (Hfound _ Hr) as (Hk' & Hreason').
        apply existsb_snoc_false in Hk' as [Hk' _]. split; assumption.
Qed.

Lemma check_for_alerts_ok_inv {T} `{Platform T} (rows : list news_item)
    (phone : string) (w w' : world T) (crit : list news_item) (any : bool) :
  check_for_alerts rows (Some phone) w = (w', Ok (crit, any)) →
  ∃ h wa st,
    stored_history (hist_file w) = JObj h
    ∧ for_rows phone rows (initial_state h) w = (wa, Ok st)
    ∧ w' = (if hist_writable w
            then set_hist_file
                   (Doc (updated_history h (clock w) (already_alerted_ids st))) wa
            else wa)
    ∧ crit = critical_items st
    ∧ any = (0 <? alerts_sent st)%nat
    ∧ hist_file wa = hist_file w.
Proof.
  rewrite check_for_alerts_unfold.
  destruct (stored_history (hist_file w)) as [| | | | |h] eqn:Hh; try discriminate.
  destruct (for_rows phone rows (initial_state h) w) as [wa [st|e]] eqn:Hrun;
    [| discriminate].
  destruct (for_rows_frame _ _ _ _ _ _ Hrun) as (Hf & Hw & _).
  rewrite Hw. intros [= <- <- <-]. exists h, wa, st.
  split; [reflexivity |]. split; [exact Hrun |].
  repeat (split; [reflexivity |]). exact Hf.
Qed.

Lemma stored_ids_same_file {T} (w1 w2 : world T) :
  hist_file w1 = hist_file w2 → stored_ids w1 = stored_ids w2.
Proof.
  intros Hf. unfold stored_ids. rewrite !load_alert_history_stored. simpl.
  now rewrite Hf.
Qed.

(** X11.  A run that returns, on a history file that can be written, only
    appends to the stored identifiers: the new ones come after the old ones,
    each once and none known before, each the identifier of a reported row;
    and the returned flag is true exactly when at least one was appended. *)
Theorem history_append_only {T} `{Platform T} (rows : list news_item)
    (phone : string) (w w' : world T) (crit : list news_item) (any : bool)
    (l : list json) :
  stored_ids w = JList l →
  hist_writable w = true →
  check_for_alerts rows (Some phone) w = (w', Ok (crit, any)) →
  ∃ added : list string,
    stored_ids w' = JList (l ++ map JStr added)
    ∧ (any = true ↔ added ≠ [])
    ∧ NoDup added
    ∧ ∀ k, In k added →
        existsb (json_eq_str k) l = false ∧ ∃ r, In r crit ∧ news_id r = k.
Proof.
  intros Hl Hwr Hrun.
  apply check_for_alerts_ok_inv in Hrun
    as (h & wa & st & Hh & Hloop & -> & -> & -> & Hfa).
  rewrite (stored_ids_initial h w Hh) in Hl.
  destruct (for_rows_added _ _ _ _ _ _ _ Hloop Hl)
    as (added & found & Ha & Hs & Hc & Hnd & _ & Hadded & _).
  exists added. split; [| split; [| split]].
  - rewrite Hwr. now rewrite stored_ids_saved.
  - rewrite Hs. simpl. destruct added; simpl; split; try discriminate; try congruence.
    intros _. apply Nat.ltb_lt. lia.
  - exact Hnd.
  - intros k Hk. rewrite Hc. exact (Hadded k Hk).
Qed.

Lemma history_append_only_witness :
  let item := demo_item "CERT-In" "Critical ransomware outbreak" "" in
  let other := demo_item "Some Blog" "Weekly notes" "nothing new" in
  let w := demo_world (Doc (JObj (<["alerts_sent" := JList [JStr "I4C:Old alert"]]> ∅))) in
  let run := check_for_alerts [item; other; item] (Some "+15550002222") w in
  snd run = Ok ([item], true)
  ∧ stored_ids (fst run)
    = JList [JStr "I4C:Old alert"; JStr "CERT-In:Critical ransomware outbreak"]
  ∧ ∃ added : list string,
      stored_ids (fst run) = JList ([JStr "I4C:Old alert"] ++ map JStr added)
      ∧ NoDup added.
Proof.
  intros item other w run.
  assert (Hr : snd run = Ok ([item], true)) by (vm_compute; reflexivity).
  split; [exact Hr |]. split; [vm_compute; reflexivity |].
  destruct (history_append_only [item; other; item] "+15550002222" w (fst run)
              [item] true [JStr "I4C:Old alert"]) as (added & Hids & _ & Hnd & _).
  - vm_compute. reflexivity.
  - reflexivity.
  - rewrite <- Hr. apply surjective_pairing.
  - exists added. split; [exact Hids | exact Hnd].
Defined.

(** X12.  The critical items a run returns are rows of the input, in the
    order of the input; each was found critical by the classifier and had an
    identifier not stored when the run started. *)
Theorem critical_items_reported {T} `{Platform T} (rows : list news_item)
    (phone : string) (w w' : world T) (crit : list news_item) (any : bool)
    (l : list json) :
  stored_ids w = JList l →
  check_for_alerts rows (Some phone) w = (w', Ok (crit, any)) →
  sublist crit rows
  ∧ ∀ r, In r crit →
      existsb (json_eq_str (news_id r)) l = false
      ∧ ∃ reason, is_critical_news (headline r) (content r) (source r)
                  = Ok (true, reason).
Proof.
  intros Hl Hrun.
  apply check_for_alerts_ok_inv in Hrun
    as (h & wa & st & Hh & Hloop & -> & -> & -> & Hfa).
  rewrite (stored_ids_initial h w Hh) in Hl.
  destruct (for_rows_added _ _ _ _ _ _ _ Hloop Hl)
    as (added & found & _ & _ & Hc & _ & Hsub & _ & Hfound).
  rewrite Hc. split; [exact Hsub | exact Hfound].
Qed.

Lemma critical_items_reported_witness :
  let item := demo_item "CERT-In" "Critical ransomware outbreak" "" in
  let other := demo_item "Some Blog" "Weekly notes" "nothing new" in
  let late := demo_item "The Hindu" "Zero-day exploit in the wild" "" in
  let w := demo_world Absent in
  snd (check_for_alerts [item; other; late] (Some "+15550002222") w)
  = Ok ([item; late], true)
  ∧ sublist [item; late] [item; other; late].
Proof.
  intros item other late w.
  assert (Hr : snd (check_for_alerts [item; other; late] (Some "+15550002222") w)
               = Ok ([item; late], true)) by (vm_compute; reflexivity).
  split; [exact Hr |].
  refine (proj1 (critical_items_reported [item; other; late] "+15550002222" w
                   (fst (check_for_alerts [item; other; late] (Some "+15550002222") w))
                   [item; late] true [] _ _)).
  - vm_compute. reflexivity.
  - rewrite <- Hr. apply surjective_pairing.
Defined.

(** X13.  When a run ends with an exception the history file is left as
    it was, even though messages may already have gone out. *)
Theorem exception_leaves_history {T} `{Platform T} (rows : list news_item)
    (phone : option string) (w w' : world T) (e : exn) :
  check_for_alerts rows phone w = (w', Raise e) →
  hist_file w' = hist_file w.
Proof.
  destruct phone as [p|]; [| discriminate].
  rewrite check_for_alerts_unfold.
  destruct (stored_history (hist_file w)); try (now intros [= <- _]).
  destruct (for_rows p rows _ w) as [wa [st|e']] eqn:Hrun; [discriminate |].
  intros [= <- _]. now apply for_rows_frame in Hrun as (Hf & _).
Qed.

Lemma exception_leaves_history_witness :
  let item := demo_item "CERT-In" "Critical ransomware outbreak" "" in
  let broken := {| source := CStr "CERT-In"; headline := CStr "Advisory";
                   content := CNaN; date := CStr "2025-01-02"; url := None |} in
  let w := demo_world Absent in
  let run := check_for_alerts [item; broken] (Some "+15550002222") w in
  snd run = Raise TypeError
  ∧ twilio (fst run) = [("+15550002222", format_alert_message item)]
  ∧ hist_file (fst run) = Absent.
Proof.
  intros item broken w run.
  assert (Hr : snd run = Raise TypeError) by (vm_compute; reflexivity).
  split; [exact Hr |]. split; [vm_compute; reflexivity |].
  apply (exception_leaves_history [item; broken] (Some "+15550002222") w (fst run)
           TypeError).
  rewrite <- Hr. apply surjective_pairing.
Defined.

(** X14.  A run with a destination that returns, on a writable file,
    stores an object whose [last_check] is the time of the run, which has an
    [alerts_sent] entry, and which keeps every other entry of the loaded
    object. *)
Theorem completed_run_rewrites_history {T} `{Platform T} (rows : list news_item)
    (phone : string) (w w' : world T) (res : list news_item * bool)
    (h : gmap string json) :
  stored_history (hist_file w) = JObj h →
  hist_writable w = true →
  check_for_alerts rows (Some phone) w = (w', Ok res) →
  ∃ m, hist_file w' = Doc (JObj m)
       ∧ m !! "last_check" = Some (JStr (isoformat (clock w)))
       ∧ is_Some (m !! "alerts_sent")
       ∧ ∀ k, k ≠ "last_check" → k ≠ "alerts_sent" → m !! k = h !! k.
Proof.
  intros Hh Hwr Hrun. destruct res as [crit any].
  apply check_for_alerts_ok_inv in Hrun
    as (h' & wa & st & Hh' & Hloop & -> & _ & _ & Hfa).
  rewrite Hh in Hh'. injection Hh' as <-. rewrite Hwr.
  eexists. split; [reflexivity |]. split; [| split].
  - rewrite lookup_insert_ne by discriminate. apply lookup_insert_eq.
  - rewrite lookup_insert_eq. eauto.
  - intros k Hk1 Hk2. now rewrite !lookup_insert_ne by congruence.
Qed.

Lemma completed_run_rewrites_history_witness :
  let w := demo_world (Doc (JObj (<["owner" := JStr "soc-team"]> ∅))) in
  let run := check_for_alerts [] (Some "+15550002222") w in
  ∃ m, hist_file (fst run) = Doc (JObj m)
       ∧ m !! "last_check" = Some (JStr "2025-01-01T00:00:00")
       ∧ m !! "owner" = Some (JStr "soc-team").
Proof.
  intros w run.
  destruct (completed_run_rewrites_history [] "+15550002222" w (fst run) ([], false)
              (<["owner" := JStr "soc-team"]> ∅))
    as (m & Hfile & Hstamp & _ & Hkeep).
  - reflexivity.
  - reflexivity.
  - vm_compute. reflexivity.
  - exists m. split; [exact Hfile |]. split; [exact Hstamp |].
    rewrite Hkeep by discriminate. reflexivity.
Defined.

Lemma send_sms_alert_unconfigured {T} `{Platform T} (to msg : string) (w : world T) :
  twilio_configured = false → send_sms_alert to msg w = (w, Ok false).
Proof.
  unfold twilio_configured, send_sms_alert. now intros ->.
Qed.

(** X16.  A send never raises and leaves the history file alone.  It
    returns true exactly when the three Twilio settings are set and the
    Twilio call returned; with a setting missing Twilio is not called at
    all. *)
Theorem send_sms_alert_outcome {T} `{Platform T} (to msg : string) (w w' : world T)
    (r : result bool) :
  send_sms_alert to msg w = (w', r) →
  hist_file w' = hist_file w
  ∧ (∃ ok, r = Ok ok
       ∧ (ok = true ↔
          twilio_configured = true
          ∧ ∃ sid, messages_create (twilio w) msg (default "" TWILIO_PHONE_NUMBER) to
                   = (twilio w', Some sid)))
  ∧ (twilio_configured = false → w' = w ∧ r = Ok false).
Proof.
  unfold send_sms_alert, twilio_configured.
  destruct (env_set TWILIO_ACCOUNT_SID && env_set TWILIO_AUTH_TOKEN
            && env_set TWILIO_PHONE_NUMBER); cbn [negb].
  - destruct (messages_create _ _ _ _) as [t' [sid|]] eqn:Hcall; intros [= <- <-];
      (split; [reflexivity |]); (split; [| discriminate]); eexists;
      (split; [reflexivity |]); split; try discriminate; eauto.
    intros [_ [sid [= ]]].
  - intros [= <- <-]. split; [reflexivity |]. split; [| auto].
    exists false. split; [reflexivity |]. split; [discriminate | intros [[=] _]].
Qed.

Lemma send_sms_alert_outcome_witness :
  hist_file (fst (send_sms_alert "+10000000000" "hello" (demo_world Absent))) = Absent
  ∧ snd (send_sms_alert "+10000000000" "hello" (demo_world Absent)) = Ok false.
Proof.
  split; [| vm_compute; reflexivity].
  apply (send_sms_alert_outcome "+10000000000" "hello" (demo_world Absent) _ _
           (surjective_pairing _)).
Defined.

Lemma loop_body_unconfigured {T} `{Platform T} (phone : string) (st : loop_state)
    (row : news_item) (w w' : world T) (r : result loop_state) :
  twilio_configured = false →
  loop_body phone st row w = (w', r) →
  w' = w ∧ ∀ st', r = Ok st' →
    already_alerted_ids st' = already_alerted_ids st
    ∧ alerts_sent st' = alerts_sent st.
Proof.
  intros Hc. unfold loop_body. unfold_M.
  destruct (json_contains (news_id row) (already_alerted_ids st)) as [[|]|e].
  - intros [= <- <-]. split; [reflexivity |]. intros st' [= <-]. auto.
  - destruct (is_critical_news (headline row) (content row) (source row))
      as [[[|] reason]|e]; cbn [fst].
    + destruct (negb _).
      * rewrite (send_sms_alert_unconfigured _ _ _ Hc).
        intros [= <- <-]. split; [reflexivity |]. intros st' [= <-]. auto.
      * intros [= <- <-]. split; [reflexivity |]. intros st' [= <-]. auto.
    + intros [= <- <-]. split; [reflexivity |]. intros st' [= <-]. auto.
    + intros [= <- <-]. split; [reflexivity |]. intros st' [=].
  - intros [= <- <-]. split; [reflexivity |]. intros st' [=].
Qed.

Lemma for_rows_unconfigured {T} `{Platform T} (phone : string)
    (rows : list news_item) (st : loop_state) (w w' : world T)
    (r : result loop_state) :
  twilio_configured = false →
  for_rows phone rows st w = (w', r) →
  w' = w ∧ ∀ st', r = Ok st' →
    already_alerted_ids st' = already_alerted_ids st
    ∧ alerts_sent st' = alerts_sent st.
Proof.
  intros Hc. revert st w. induction rows as [|row rows IH]; intros st w.
  - rewrite for_rows_nil. intros [= <- <-]. split; [reflexivity |].
    intros st' [= <-]. auto.
  - rewrite for_rows_cons.
    destruct (loop_body phone st row w) as [w1 [st1|e]] eqn:Hbody;
      apply (loop_body_unconfigured _ _ _ _ _ _ Hc) in Hbody as [-> Hst1].
    + destruct (Hst1 st1 eq_refl) as [Hids Hsent].
      intros Hrest. apply IH in Hrest as [-> Hst'].
      split; [reflexivity |]. intros st' Hr.
      destruct (Hst' st' Hr) as [-> ->]. auto.
    + intros [= <- <-]. split; [reflexivity |]. intros st' [=].
Qed.

(** X17.  With a Twilio setting missing a run alerts nobody: Twilio is
    not called, the returned flag is false and the stored identifiers are
    the ones the run started from, while the critical rows are still
    reported. *)
Theorem unconfigured_never_alerts {T} `{Platform T} (rows : list news_item)
    (phone : option string) (w w' : world T) (r : result (list news_item * bool)) :
  twilio_configured = false →
  check_for_alerts rows phone w = (w', r) →
  twilio w' = twilio w
  ∧ ∀ crit any, r = Ok (crit, any) →
      any = false ∧ stored_ids w' = stored_ids w.
Proof.
  intros Hc. destruct phone as [p|].
  2:{ intros [= <- <-]. split; [reflexivity |]. intros crit any [= <- <-]. auto. }
  rewrite check_for_alerts_unfold.
  destruct (stored_history (hist_file w)) as [| | | | |h] eqn:Hh;
    try (intros [= <- <-]; split; [reflexivity | intros ? ? [=]]).
  destruct (for_rows p rows (initial_state h) w) as [w2 [st|e]] eqn:Hrun;
    apply (for_rows_unconfigured _ _ _ _ _ _ Hc) in Hrun as [-> Hst].
  - destruct (Hst st eq_refl) as [Hids Hsent].
    intros [= <- <-]. split; [destruct (hist_writable w); reflexivity |].
    intros crit any [= <- <-]. rewrite Hsent. split; [reflexivity |].
    destruct (hist_writable w); [| reflexivity].
    rewrite stored_ids_saved, (stored_ids_initial h w Hh). exact Hids.
  - intros [= <- <-]. split; [reflexivity | intros ? ? [=]].
Qed.

Lemma unconfigured_never_alerts_witness :
  let rows := [demo_item "CERT-In" "Critical ransomware outbreak" ""] in
  let run := check_for_alerts rows (Some "+15550002222") (offline_world Absent) in
  snd run = Ok (rows, false)
  ∧ twilio (fst run) = tt
  ∧ stored_ids (fst run) = stored_ids (offline_world Absent).
Proof.
  intros rows run.
  assert (Hr : snd run = Ok (rows, false)) by (vm_compute; reflexivity).
  destruct (@unconfigured_never_alerts unit offline_platform rows
              (Some "+15550002222") (offline_world Absent) (fst run) (snd run)
              eq_refl (surjective_pairing run)) as [Htw Hok].
  split; [exact Hr |]. split; [exact Htw |].
  exact (proj2 (Hok rows false Hr)).
Defined.

(** ** The registered number *)

(** No string character is both. *)
Lemma space_not_digit (c : ascii) : py_isspace c = true → py_isdigit c = false.
Proof. destruct c as [[] [] [] [] [] [] [] []]; vm_compute; congruence. Qed.

Lemma keep_digits_lstrip (s : string) : keep_digits (py_lstrip s) = keep_digits s.
Proof.
  induction s as [|c s IH]; [reflexivity |].
  cbn [py_lstrip]. destruct (py_isspace c) eqn:Hc; [| reflexivity].
  cbn [keep_digits]. now rewrite (space_not_digit c Hc).
Qed.

Lemma keep_digits_rstrip (s : string) : keep_digits (py_rstrip s) = keep_digits s.
Proof.
  induction s as [|c s IH]; [reflexivity |].
  cbn [py_rstrip keep_digits]. rewrite <- IH.
  destruct (py_rstrip s) as [|d r]; [| reflexivity].
  destruct (py_isspace c) eqn:Hc; [| reflexivity].
  now rewrite (space_not_digit c Hc).
Qed.

Lemma keep_digits_strip (s : string) : keep_digits (py_strip s) = keep_digits s.
Proof. unfold py_strip. now rewrite keep_digits_lstrip, keep_digits_rstrip. Qed.

Lemma keep_digits_idem (s : string) : keep_digits (keep_digits s) = keep_digits s.
Proof.
  induction s as [|c s IH]; [reflexivity |].
  cbn [keep_digits]. destruct (py_isdigit c) eqn:Hc; [| exact IH].
  cbn [keep_digits]. now rewrite Hc, IH.
Qed.

Lemma keep_digits_all_digits (s : string) :
  Forall (fun c => py_isdigit c = true) (chars (keep_digits s)).
Proof.
  induction s as [|c s IH]; [constructor |].
  cbn [keep_digits]. destruct (py_isdigit c) eqn:Hc; [| exact IH].
  constructor; assumption.
Qed.

Lemma rstrip_no_space (s : string) :
  Forall (fun c => py_isspace c = false) (chars s) → py_rstrip s = s.
Proof.
  induction s as [|c s IH]; [reflexivity |].
  intros Hall. inversion Hall as [|? ? Hc Hs]; subst.
  cbn [py_rstrip]. rewrite (IH Hs), Hc. destruct s; reflexivity.
Qed.

Lemma strip_no_space (s : string) :
  Forall (fun c => py_isspace c = false) (chars s) → py_strip s = s.
Proof.
  intros Hall. unfold py_strip. rewrite (rstrip_no_space s Hall).
  destruct s as [|c s]; [reflexivity |].
  inversion Hall as [|? ? Hc _]; subst. cbn [py_lstrip]. now rewrite Hc.
Qed.

Lemma digit_not_space (c : ascii) : py_isdigit c = true → py_isspace c = false.
Proof.
  intros Hd. destruct (py_isspace c) eqn:Hs; [| reflexivity].
  rewrite (space_not_digit c Hs) in Hd. discriminate.
Qed.

Lemma number_no_space (s : string) :
  Forall (fun c => py_isspace c = false) (chars ("+" +:+ keep_digits s)).
Proof.
  rewrite app_string_cons, app_string_nil. cbn [chars].
  constructor; [reflexivity |].
  eapply Forall_impl; [apply keep_digits_all_digits |].
  intros c. apply digit_not_space.
Qed.

(** The number the registration builds is "+" and the digits of the input. *)
Lemma normalised_number (t : string) :
  keep_digits
    (drop_first (if PyStr.startswith "+" t then t else "+" +:+ t))
  = keep_digits t.
Proof.
  destruct t as [|c t]; [reflexivity |].
  cbn [PyStr.startswith].
  destruct (Ascii.eqb_spec "+"%char c) as [<- | Hc]; [reflexivity |].
  reflexivity.
Qed.

Lemma length_number (s : string) :
  String.length ("+" +:+ keep_digits s) = S (String.length (keep_digits s)).
Proof. reflexivity. Qed.

Lemma strip_empty_no_digits (s : string) :
  py_strip s = "" → keep_digits s = "".
Proof. intros Hs. now rewrite <- keep_digits_strip, Hs. Qed.

Lemma digit_is_ascii (c : ascii) : py_isdigit c = true → is_ascii c = true.
Proof. destruct c as [[] [] [] [] [] [] [] []]; vm_compute; congruence. Qed.

Lemma keep_digits_ascii (s : string) : ascii_only (keep_digits s) = true.
Proof.
  induction s as [|c s IH]; [reflexivity |].
  cbn [keep_digits]. destruct (py_isdigit c) eqn:Hc; [| exact IH].
  cbn [ascii_only]. now rewrite (digit_is_ascii c Hc), IH.
Qed.

(** [register_phone_for_alerts] in terms of the digits of its input. *)
Lemma register_phone_cases (s : string) (ps : phone_store) :
  register_phone_for_alerts (Some s) ps
  = if String.eqb (py_strip s) "" then
      (ps, (false, "Phone number cannot be empty"))
    else if (String.length (keep_digits s) <? 9)%nat then
      (ps, (false, "Phone number is too short"))
    else
      match phone_write ps with
      | Written =>
        ({| phone_file := Text ("+" +:+ keep_digits s); phone_write := Written |},
         (true, "Successfully registered " +:+ ("+" +:+ keep_digits s) +:+ " for alerts"))
      | OpenFails err =>
        (ps, (false, "Error registering phone number: " +:+ err))
      | WriteFails err kept =>
        ({| phone_file := Text (take_chars kept ("+" +:+ keep_digits s));
            phone_write := WriteFails err kept |},
         (false, "Error registering phone number: " +:+ err))
      end.
Proof.
  unfold register_phone_for_alerts.
  destruct (String.eqb_spec s "") as [-> | Hs]; [reflexivity |].
  cbn [orb].
  destruct (String.eqb (py_strip s) ""); [reflexivity |].
  rewrite normalised_number, keep_digits_strip, length_number.
  reflexivity.
Qed.


(** X18.  For ASCII input: a successful registration stores "+" followed
    by the digits of the input, in their order and nothing else, at least
    nine of them.  A registration that fails leaves the file as it was when
    the input is refused (blank, or fewer than nine digits) and when the
    file cannot be opened; when the write breaks off after the file was
    opened, the file is left with the characters that went out. *)
Theorem register_phone_normal_form (s : string) (ps ps' : phone_store)
    (ok : bool) (msg : string) :
  ascii_only s = true →
  register_phone_for_alerts (Some s) ps = (ps', (ok, msg)) →
  (ok = true →
   phone_file ps' = Text ("+" +:+ keep_digits s)
   ∧ (9 ≤ String.length (keep_digits s))%nat
   ∧ Forall (fun c => py_isdigit c = true) (chars (keep_digits s))
   ∧ msg = "Successfully registered +" +:+ keep_digits s +:+ " for alerts")
  ∧ (ok = false →
     ((String.length (keep_digits s) < 9)%nat → ps' = ps)
     ∧ (∀ err, phone_write ps = OpenFails err → ps' = ps)
     ∧ (∀ err kept, phone_write ps = WriteFails err kept →
          (9 ≤ String.length (keep_digits s))%nat →
          phone_file ps' = Text (take_chars kept ("+" +:+ keep_digits s)))).
Proof.
  intros _. rewrite register_phone_cases.
  destruct (String.eqb_spec (py_strip s) "") as [Hempty | _].
  { intros [= <- <- <-]. split; [discriminate |]. intros _.
    split; [reflexivity |]. split; [reflexivity |].
    intros err kept _ Hlen.
    rewrite (strip_empty_no_digits s Hempty) in Hlen. simpl in Hlen. lia. }
  destruct (Nat.ltb_spec (String.length (keep_digits s)) 9) as [Hlt | Hge].
  { intros [= <- <- <-]. split; [discriminate |]. intros _.
    split; [reflexivity |]. split; [reflexivity |]. intros err kept _ Hlen. lia. }
  destruct (phone_write ps) as [|err|err kept] eqn:Hw.
  - intros [= <- <- <-]. split; [| discriminate]. intros _.
    split; [reflexivity |]. split; [exact Hge |].
    split; [apply keep_digits_all_digits | reflexivity].
  - intros [= <- <- <-]. split; [discriminate |]. intros _.
    split; [reflexivity |]. split; [reflexivity |]. intros err' kept [=].
  - intros [= <- <- <-]. split; [discriminate |]. intros _.
    split; [lia |]. split; [intros err' [=] |].
    intros err' kept' [= _ <-] _. reflexivity.
Qed.

Lemma register_phone_normal_form_witness :
  phone_file (fst (register_phone_for_alerts (Some " (91) 98765-43210 ")
                     (demo_phone_store NoFile)))
  = Text "+919876543210"
  ∧ fst (register_phone_for_alerts (Some "+91 98765") (demo_phone_store (Text "+15550002222")))
    = demo_phone_store (Text "+15550002222")
  ∧ phone_file (fst (register_phone_for_alerts (Some "91 98765 43210")
                       {| phone_file := Text "+15550002222";
                          phone_write := WriteFails "No space left on device" 0 |}))
    = Text "".
Proof.
  split; [| split].
  - refine (proj1 (proj1 (register_phone_normal_form " (91) 98765-43210 "
                            (demo_phone_store NoFile) _ true _ eq_refl _) eq_refl)).
    vm_compute. reflexivity.
  - refine (proj1 (proj2 (register_phone_normal_form "+91 98765"
                            (demo_phone_store (Text "+15550002222")) _ false
                            "Phone number is too short" eq_refl _) eq_refl) _).
    + vm_compute. reflexivity.
    + vm_compute. lia.
  - refine (proj2 (proj2 (proj2 (register_phone_normal_form "91 98765 43210"
                            {| phone_file := Text "+15550002222";
                               phone_write := WriteFails "No space left on device" 0 |}
                            _ false
                            "Error registering phone number: No space left on device"
                            eq_refl _) eq_refl))
              "No space left on device" 0 eq_refl _).
    + vm_compute. reflexivity.
    + vm_compute. lia.
Defined.

(** X19.  A registration succeeds exactly when it is given a string, here
    ASCII, with at least nine digits, and the file is written without an
    error. *)
Theorem register_phone_accepts_iff (phone_number : option string) (ps : phone_store) :
  (∀ s, phone_number = Some s → ascii_only s = true) →
  (fst (snd (register_phone_for_alerts phone_number ps)) = true
   ↔ ∃ s, phone_number = Some s
          ∧ (9 ≤ String.length (keep_digits s))%nat
          ∧ phone_write ps = Written).
Proof.
  intros _. destruct phone_number as [s|].
  2: { cbn [register_phone_for_alerts fst snd].
       split; [discriminate | intros (s & [=] & _)]. }
  rewrite register_phone_cases.
  destruct (String.eqb_spec (py_strip s) "") as [Hempty | _].
  { cbn [fst snd]. split; [discriminate |].
    intros (s' & [= <-] & Hlen & _).
    rewrite (strip_empty_no_digits s Hempty) in Hlen. simpl in Hlen. lia. }
  destruct (Nat.ltb_spec (String.length (keep_digits s)) 9) as [Hlt | Hge].
  { cbn [fst snd]. split; [discriminate |]. intros (s' & [= <-] & Hlen & _). lia. }
  destruct (phone_write ps) as [|err|err kept]; cbn [fst snd].
  - split; [| reflexivity]. intros _. exists s. auto.
  - split; [discriminate | intros (s' & _ & _ & [=])].
  - split; [discriminate | intros (s' & _ & _ & [=])].
Qed.

Lemma register_phone_accepts_iff_witness :
  fst (snd (register_phone_for_alerts (Some "98765 43210")
              (demo_phone_store NoFile))) = true
  ∧ fst (snd (register_phone_for_alerts (Some "98765 43210")
                {| phone_file := NoFile; phone_write := OpenFails "read-only" |}))
    ≠ true.
Proof.
  assert (Hascii : ∀ s, Some "98765 43210" = Some s → ascii_only s = true).
  { intros s [= <-]. reflexivity. }
  split.
  - apply (register_phone_accepts_iff (Some "98765 43210") (demo_phone_store NoFile) Hascii).
    exists "98765 43210". split; [reflexivity |].
    split; [vm_compute; lia | reflexivity].
  - intros Hok.
    apply (register_phone_accepts_iff (Some "98765 43210") _ Hascii)
      in Hok as (s & _ & _ & Hw).
    discriminate Hw.
Defined.

(** X20.  For ASCII input: after a successful registration the registered
    number reads back as "+" and the digits of the input; registering that
    number again, with or without its "+", succeeds and stores the same. *)
Theorem register_then_get (s : string) (ps ps' : phone_store) (msg : string) :
  ascii_only s = true →
  register_phone_for_alerts (Some s) ps = (ps', (true, msg)) →
  get_registered_phone ps' = Some ("+" +:+ keep_digits s)
  ∧ ascii_only ("+" +:+ keep_digits s) = true
  ∧ register_phone_for_alerts (Some ("+" +:+ keep_digits s)) ps' = (ps', (true, msg))
  ∧ register_phone_for_alerts (Some (keep_digits s)) ps' = (ps', (true, msg)).
Proof.
  intros Hascii Hreg.
  assert (Hcases := Hreg). rewrite register_phone_cases in Hcases.
  destruct (String.eqb (py_strip s) ""); [discriminate |].
  destruct (Nat.ltb_spec (String.length (keep_digits s)) 9) as [Hlt | Hge];
    [discriminate |].
  destruct (phone_write ps) as [|err|err kept]; try discriminate.
  injection Hcases as <- <-.
  assert (Hplus : keep_digits ("+" +:+ keep_digits s) = keep_digits s).
  { rewrite app_string_cons, app_string_nil. cbn [keep_digits].
    change (py_isdigit "+"%char) with false. apply keep_digits_idem. }
  split; [| split; [| split]].
  - unfold get_registered_phone. cbn [phone_file].
    now rewrite (strip_no_space _ (number_no_space s)).
  - rewrite app_string_cons, app_string_nil. cbn [ascii_only].
    change (is_ascii "+"%char) with true. cbn [andb].
    apply keep_digits_ascii.
  - rewrite register_phone_cases. cbn [phone_write].
    rewrite (strip_no_space _ (number_no_space s)), Hplus.
    destruct (Nat.ltb_spec (String.length (keep_digits s)) 9); [lia |].
    reflexivity.
  - rewrite register_phone_cases. cbn [phone_write].
    rewrite keep_digits_idem.
    destruct (String.eqb_spec (py_strip (keep_digits s)) "") as [Hempty | _].
    { apply strip_empty_no_digits in Hempty. rewrite keep_digits_idem in Hempty.
      rewrite Hempty in Hge. simpl in Hge. lia. }
    destruct (Nat.ltb_spec (String.length (keep_digits s)) 9); [lia |].
    reflexivity.
Qed.

Lemma register_then_get_witness :
  let ps' := fst (register_phone_for_alerts (Some " (91) 98765-43210 ")
                    (demo_phone_store NoFile)) in
  get_registered_phone ps' = Some "+919876543210"
  ∧ fst (register_phone_for_alerts (Some "+919876543210") ps') = ps'.
Proof.
  intros ps'.
  destruct (register_then_get " (91) 98765-43210 " (demo_phone_store NoFile) ps'
              "Successfully registered +919876543210 for alerts" eq_refl)
    as (Hget & _ & Hagain & _).
  - vm_compute. reflexivity.
  - split; [exact Hget |]. change "+919876543210" with ("+" +:+ keep_digits " (91) 98765-43210 ").
    now rewrite Hagain.
Defined.

Lemma lstrip_idem (s : string) : py_lstrip (py_lstrip s) = py_lstrip s.
Proof.
  induction s as [|c s IH]; [reflexivity |].
  cbn [py_lstrip]. destruct (py_isspace c) eqn:Hc; [exact IH |].
  cbn [py_lstrip]. now rewrite Hc.
Qed.

Lemma rstrip_idem (s : string) : py_rstrip (py_rstrip s) = py_rstrip s.
Proof.
  induction s as [|c s IH]; [reflexivity |].
  cbn [py_rstrip]. destruct (py_rstrip s) as [|d r] eqn:Hr.
  - destruct (py_isspace c) eqn:Hc; [reflexivity |].
    cbn [py_rstrip]. now rewrite Hc.
  - cbn [py_rstrip] in *. now rewrite IH.
Qed.

Lemma rstrip_cons_fixed (c : ascii) (s : string) :
  py_rstrip (String c s) = String c s → py_rstrip s = s.
Proof.
  cbn [py_rstrip]. destruct (py_rstrip s) as [|d r] eqn:Hr.
  - destruct (py_isspace c); [discriminate |]. now intros [= <-].
  - now intros [= <-].
Qed.

Lemma rstrip_lstrip_fixed (s : string) :
  py_rstrip s = s → py_rstrip (py_lstrip s) = py_lstrip s.
Proof.
  induction s as [|c s IH]; [reflexivity |].
  intros Hfix. cbn [py_lstrip]. destruct (py_isspace c); [| exact Hfix].
  apply IH. eapply rstrip_cons_fixed; eauto.
Qed.

Lemma strip_idem (s : string) : py_strip (py_strip s) = py_strip s.
Proof.
  unfold py_strip.
  rewrite (rstrip_lstrip_fixed (py_rstrip s) (rstrip_idem s)).
  apply lstrip_idem.
Qed.

Lemma lstrip_head (s : string) (c : ascii) (t : string) :
  py_lstrip s = String c t → py_isspace c = false.
Proof.
  induction s as [|d s IH]; [discriminate |].
  cbn [py_lstrip]. destruct (py_isspace d) eqn:Hd; [exact IH |].
  now intros [= <- _].
Qed.

(** X21.  The registered number is returned stripped: stripping it again
    changes nothing, it does not start with white space, and it has the
    digits of the file. *)
Theorem get_registered_phone_stripped (ps : phone_store) (p : string) :
  get_registered_phone ps = Some p →
  py_strip p = p
  ∧ (∀ c t, p = String c t → py_isspace c = false)
  ∧ keep_digits p = match phone_file ps with
                    | Text s => keep_digits s
                    | _ => ""
                    end.
Proof.
  unfold get_registered_phone.
  destruct (phone_file ps) as [| |s]; try discriminate.
  intros [= <-]. split; [apply strip_idem |]. split.
  - intros c t Hp. unfold py_strip in Hp. eapply lstrip_head; eauto.
  - apply keep_digits_strip.
Qed.

Lemma get_registered_phone_stripped_witness :
  get_registered_phone (demo_phone_store (Text (" +919876543210" +:+ nl)))
  = Some "+919876543210"
  ∧ py_strip "+919876543210" = "+919876543210".
Proof.
  assert (Hget : get_registered_phone (demo_phone_store (Text (" +919876543210" +:+ nl)))
                 = Some "+919876543210") by (vm_compute; reflexivity).
  split; [exact Hget |].
  exact (proj1 (get_registered_phone_stripped _ _ Hget)).
Defined.

(** X22.  A test alert never raises and leaves the history file alone.
    It goes to the number passed when there is one that is not empty, else
    to the registered one; the reported success is the result of that one
    send.  With no number at all nothing is sent. *)
Theorem test_alert_system_outcome {T} `{Platform T} (phone_number : option string)
    (ps : phone_store) (w w' : world T) (r : result (bool * string)) :
  test_alert_system phone_number ps w = (w', r) →
  hist_file w' = hist_file w
  ∧ ∃ ok msg, r = Ok (ok, msg)
      ∧ match usable phone_number, usable (get_registered_phone ps) with
        | Some p, _ | None, Some p =>
          send_sms_alert p test_message w = (w', Ok ok)
          ∧ msg = (if ok then "Test alert sent to " +:+ p
                   else "Failed to send test alert. Check Twilio credentials.")
        | None, None =>
          w' = w ∧ ok = false ∧ msg = "No phone number registered for alerts"
        end.
Proof.
  unfold test_alert_system, usable, no_number.
  assert (Hsend : ∀ p,
    (success ← send_sms_alert p test_message;
     if success : bool then mret (true, "Test alert sent to " +:+ p)
     else mret (false, "Failed to send test alert. Check Twilio credentials."))
      w = (w', r) →
    hist_file w' = hist_file w
    ∧ ∃ ok msg, r = Ok (ok, msg)
        ∧ send_sms_alert p test_message w = (w', Ok ok)
        ∧ msg = (if ok then "Test alert sent to " +:+ p
                 else "Failed to send test alert. Check Twilio credentials.")).
  { intros p. unfold_M.
    destruct (send_sms_alert p test_message w) as [w1 r1] eqn:Hs.
    destruct (send_sms_alert_frame _ _ _ _ _ Hs) as (Hf & _ & _ & ok & ->).
    destruct ok; intros [= <- <-]; (split; [exact Hf |]); eauto. }
  assert (Hnone : (mret (false, "No phone number registered for alerts")
                     : M T (bool * string)) w = (w', r) →
                  hist_file w' = hist_file w
                  ∧ ∃ ok msg, r = Ok (ok, msg)
                      ∧ w' = w ∧ ok = false
                      ∧ msg = "No phone number registered for alerts").
  { unfold_M. intros [= <- <-]. split; [reflexivity |]. eauto 10. }
  destruct phone_number as [s|].
  - destruct (String.eqb s "") eqn:Hs.
    + destruct (get_registered_phone ps) as [q|].
      * destruct (String.eqb q "") eqn:Hq; [exact Hnone | apply Hsend].
      * exact Hnone.
    + rewrite Hs. apply Hsend.
  - destruct (get_registered_phone ps) as [q|].
    + destruct (String.eqb q "") eqn:Hq; [exact Hnone | apply Hsend].
    + exact Hnone.
Qed.

Lemma test_alert_system_outcome_witness :
  test_alert_system (Some "") (demo_phone_store NoFile) (demo_world Absent)
  = (demo_world Absent, Ok (false, "No phone number registered for alerts"))
  ∧ hist_file (fst (test_alert_system (Some "+15550002222")
                      (demo_phone_store (Text "+10000000000")) (demo_world Absent)))
    = Absent.
Proof.
  split; [vm_compute; reflexivity |].
  apply (test_alert_system_outcome (Some "+15550002222")
           (demo_phone_store (Text "+10000000000")) (demo_world Absent) _ _
           (surjective_pairing _)).
Defined.

(** ** Digest messages and running the system *)

Lemma digest_lines_fields (i : nat) (a b : list scored_item) :
  map digest_fields a = map digest_fields b →
  digest_lines i a = digest_lines i b.
Proof.
  revert i b. induction a as [|x a IH]; intros i [|y b]; try discriminate;
    [reflexivity |].
  cbn [map digest_lines]. unfold digest_fields at 1 3.
  intros [= Hs Hh Hrest]. rewrite Hs, Hh, (IH (S i) b Hrest). reflexivity.
Qed.

(** X23.  The text of a digest depends only on how many items there are
    and on the source and headline of the first three. *)
Theorem digest_message_top_three (a b : list scored_item) :
  List.length a = List.length b →
  map digest_fields (take 3 a) = map digest_fields (take 3 b) →
  digest_message a = digest_message b.
Proof.
  intros Hlen Htop. unfold digest_message.
  now rewrite Hlen, (digest_lines_fields 0 _ _ Htop).
Qed.

Lemma digest_message_top_three_witness :
  digest_message [(demo_item "A" "h1" "x", 30%Z); (demo_item "B" "h2" "", 20%Z);
                  (demo_item "C" "h3" "", 15%Z); (demo_item "D" "h4" "", 12%Z)]
  = digest_message [(demo_item "A" "h1" "y", 31%Z); (demo_item "B" "h2" "", 20%Z);
                    (demo_item "C" "h3" "", 15%Z); (demo_item "E" "h5" "", 10%Z)].
Proof. apply digest_message_top_three; reflexivity. Defined.

(** X24.  Sending a digest never raises and leaves the alert history as
    it is, so the items of a digest are not marked as alerted.  With no item,
    or with a Twilio setting missing, nothing is sent and the result is
    false. *)
Theorem send_digest_alert_outcome {T} `{Platform T} (phone : string)
    (items : list scored_item) (w w' : world T) (r : result bool) :
  send_digest_alert phone items w = (w', r) →
  hist_file w' = hist_file w
  ∧ stored_ids w' = stored_ids w
  ∧ (∃ ok, r = Ok ok)
  ∧ (items = [] → w' = w ∧ r = Ok false)
  ∧ (twilio_configured = false → w' = w ∧ r = Ok false).
Proof.
  unfold send_digest_alert. destruct items as [|item items].
  - unfold_M. intros [= <- <-]. repeat split; eauto.
  - intros Hsend.
    destruct (send_sms_alert_frame _ _ _ _ _ Hsend) as (Hf & _ & _ & Hok).
    split; [exact Hf |]. split; [now apply stored_ids_same_file |].
    split; [exact Hok |]. split; [discriminate |].
    intros Hoff. rewrite (send_sms_alert_unconfigured _ _ _ Hoff) in Hsend.
    now injection Hsend as <- <-.
Qed.

Lemma send_digest_alert_outcome_witness :
  send_digest_alert "+15550002222" [] (demo_world Absent)
  = (demo_world Absent, Ok false).
Proof.
  destruct (send_digest_alert "+15550002222" [] (demo_world Absent)) as [w' r] eqn:Hs.
  destruct (send_digest_alert_outcome _ _ _ _ _ Hs) as (_ & _ & _ & Hempty & _).
  destruct (Hempty eq_refl) as [-> ->]. reflexivity.
Defined.



Lemma app_string_nil_r (a : string) : a +:+ "" = a.
Proof.
  induction a as [|x a IH]; [reflexivity |].
  now rewrite app_string_cons, IH.
Qed.

Lemma contains_refl (p : string) : PyStr.contains p p = true.
Proof.
  apply contains_spec. exists "", "". now rewrite app_string_nil, app_string_nil_r.
Qed.

Lemma contains_app_r (p a s : string) :
  PyStr.contains p s = true → PyStr.contains p (a +:+ s) = true.
Proof.
  rewrite !contains_spec. intros (x & y & ->). exists (a +:+ x), y.
  now rewrite app_string_assoc.
Qed.

Lemma contains_app_l (p s b : string) :
  PyStr.contains p s = true → PyStr.contains p (s +:+ b) = true.
Proof.
  rewrite !contains_spec. intros (x & y & ->). exists x, (y +:+ b).
  now rewrite !app_string_assoc.
Qed.

(** X26.  An alert message starts with "SECURITY ALERT: " and carries
    the source, the headline and the date of the item, and its URL when that
    is true in Python's sense; a URL that is [None] or empty is left out as
    if the column were missing. *)
Theorem alert_message_carries_fields (item : news_item) :
  let message := format_alert_message item in
  PyStr.startswith "SECURITY ALERT: " message = true
  ∧ PyStr.contains (py_str (source item)) message = true
  ∧ PyStr.contains (py_str (headline item)) message = true
  ∧ PyStr.contains ("Date: " +:+ py_str (date item)) message = true
  ∧ (∀ u, url item = Some u → truthy u = true →
       PyStr.contains ("More info: " +:+ py_str u) message = true)
  ∧ (∀ u, url item = Some u → truthy u = false →
       message = format_alert_message
                   {| source := source item; headline := headline item;
                      content := content item; date := date item; url := None |}).
Proof.
  unfold format_alert_message. cbv zeta.
  split; [| split; [| split; [| split; [| split]]]].
  - apply startswith_spec.
    destruct (url item) as [u|]; [destruct (truthy u) |];
      rewrite ?app_string_assoc; eexists; reflexivity.
  - destruct (url item) as [u|]; [destruct (truthy u); [apply contains_app_l |] |];
      apply contains_app_r, contains_app_l, contains_refl.
  - destruct (url item) as [u|]; [destruct (truthy u); [apply contains_app_l |] |];
      do 4 apply contains_app_r; apply contains_app_l, contains_refl.
  - destruct (url item) as [u|]; [destruct (truthy u); [apply contains_app_l |] |];
      do 7 apply contains_app_r; apply contains_refl.
  - intros u -> ->. do 3 apply contains_app_r. apply contains_refl.
  - intros u -> ->. reflexivity.
Qed.

Lemma alert_message_carries_fields_witness :
  PyStr.contains "More info: https://cert-in.org.in/a1"
    (format_alert_message
       {| source := CStr "CERT-In"; headline := CStr "Critical flaw";
          content := CStr ""; date := CStr "2025-01-01";
          url := Some (CStr "https://cert-in.org.in/a1") |}) = true.
Proof.
  destruct (alert_message_carries_fields
              {| source := CStr "CERT-In"; headline := CStr "Critical flaw";
                 content := CStr ""; date := CStr "2025-01-01";
                 url := Some (CStr "https://cert-in.org.in/a1") |})
    as (_ & _ & _ & _ & Hurl & _).
  exact (Hurl (CStr "https://cert-in.org.in/a1") eq_refl eq_refl).
Defined.
